(** * Voar: a shallow embedding of [app.py] and [config.py]

    The Flask handlers of [app.py] are embedded as computations in a small
    state-and-exception monad over a [world] made of the SQLite database
    file, the signed session, the upload directory and the count of open
    database connections.  Library code the handlers call (werkzeug's
    password hashing and [secure_filename]) is abstracted in the record
    [werkzeug]; what the operating system supplies per request (clock,
    salt, whether the filesystem takes a file) travels in the record
    [env]. *)

From Stdlib Require Import ZArith String Ascii List Lia Permutation Sorted.
From stdpp Require Import base option list gmap strings sorting.

Open Scope string_scope.
Open Scope Z_scope.

(** ** Python string operations used by the handlers *)

Module PyStr.

(** [c in s] for a one-character needle. *)
Fixpoint contains (c : ascii) (s : string) : bool :=
  match s with
  | EmptyString => false
  | String d s' => if Ascii.eqb d c then true else contains c s'
  end.

(** The cut made by [s.rsplit(c, 1)]: the text before the last
    occurrence of [c] and the text after it, when [c] occurs. *)
Fixpoint rcut (c : ascii) (s : string) : option (string * string) :=
  match s with
  | EmptyString => None
  | String d s' =>
      match rcut c s' with
      | Some (h, t) => Some (String d h, t)
      | None => if Ascii.eqb d c then Some (EmptyString, s') else None
      end
  end.

(** [s.rsplit(c, 1)]. *)
Definition rsplit1 (c : ascii) (s : string) : list string :=
  match rcut c s with
  | Some (h, t) => [h; t]
  | None => [s]
  end.

Definition lower_ascii (c : ascii) : ascii :=
  let n := nat_of_ascii c in
  if (Nat.leb 65 n && Nat.leb n 90)%bool then ascii_of_nat (n + 32) else c.

(** [s.lower()].  Strings are byte strings here; on the characters
    outside ASCII the method either leaves a character outside ASCII or
    (for the Kelvin sign only) yields the letter k, which occurs in no
    allowed extension, so membership in [ALLOWED_EXTENSIONS] is the same. *)
Fixpoint lower (s : string) : string :=
  match s with
  | EmptyString => EmptyString
  | String c s' => String (lower_ascii c) (lower s')
  end.

Definition is_digit (c : ascii) : bool :=
  let n := nat_of_ascii c in (Nat.leb 48 n && Nat.leb n 57)%bool.

Definition digit (n : nat) : ascii := ascii_of_nat (48 + n mod 10).

(** Decimal numeral of [n], most significant digit first; [fuel] bounds
    the number of digits. *)
Fixpoint dec_go (fuel n : nat) (acc : string) : string :=
  match fuel with
  | O => acc
  | S fuel' =>
      let acc' := String (digit n) acc in
      if Nat.ltb n 10 then acc' else dec_go fuel' (n / 10) acc'
  end.

(** [str(n)] for a natural number. *)
Definition dec (n : nat) : string := dec_go (S n) n EmptyString.

(** [%02d]-style field: two digits, zero padded. *)
Definition dec2 (n : nat) : string :=
  if Nat.ltb n 10 then String (digit 0) (dec n) else dec n.

End PyStr.

(** ** Configuration *)

(** [app.py], line 17 (and the same literal in [config.py], line 7). *)
Definition ALLOWED_EXTENSIONS : gset string :=
  {[ "png"; "jpg"; "jpeg"; "gif"; "mp4"; "avi"; "mov"; "webm" ]}.

Definition default_secret_key : string :=
  "your-secret-key-change-this-in-production".

Definition UPLOAD_FOLDER : string := "static/uploads".

Definition MAX_CONTENT_LENGTH : Z := 16 * 1024 * 1024.

(** The process environment, [os.environ]. *)
Definition environ : Type := gmap string string.

(** Python truthiness of [os.environ.get(k)]: [None] and the empty string
    are both false. *)
Definition py_or (o : option string) (d : string) : string :=
  match o with
  | Some s => if decide (s = "") then d else s
  | None => d
  end.

Module Config.
(** [config.py], line 4. *)
Definition SECRET_KEY (e : environ) : string :=
  py_or (e !! "SECRET_KEY") default_secret_key.
End Config.

(** The Flask application object after the module body of [app.py] has run
    (lines 8 to 11): the three settings are literals, [os.environ] and
    [config.Config] are not read. *)
Record flask_app := {
  secret_key : string;
  cfg_upload_folder : string;
  cfg_max_content_length : Z
}.

Definition app (e : environ) : flask_app :=
  {| secret_key := default_secret_key;
     cfg_upload_folder := UPLOAD_FOLDER;
     cfg_max_content_length := MAX_CONTENT_LENGTH |}.

(** [app.py], lines 19-20.  The subscript [[1]] cannot raise: Python
    evaluates it only when ['.' in filename] holds. *)
Definition allowed_file (filename : string) : bool :=
  PyStr.contains "." filename &&
  match PyStr.rsplit1 "." filename !! 1%nat with
  | Some ext => bool_decide (PyStr.lower ext ∈ ALLOWED_EXTENSIONS)
  | None => false
  end.

(** ** The persistence layer: tables of [voar.db] *)

(** A row of [users] (schema at lines 27-32).  [created_at] is the value
    of [CURRENT_TIMESTAMP] at insertion; SQLite stores it as the
    fixed-width text [YYYY-MM-DD HH:MM:SS], whose byte order is the
    chronological order, so it is kept here as a number of seconds. *)
Record user_row := {
  u_id : Z;
  u_username : string;
  u_email : string;
  u_password_hash : string;
  u_created_at : Z
}.

(** A row of [posts] (schema at lines 35-41); [media_filename] is the only
    nullable column. *)
Record post_row := {
  p_id : Z;
  p_user_id : Z;
  p_content : string;
  p_media_filename : option string;
  p_created_at : Z
}.

(** Both tables in rowid (insertion) order, with the [sqlite_sequence]
    counters that [AUTOINCREMENT] maintains. *)
Record tables := {
  users : list user_row;
  posts : list post_row;
  users_seq : Z;
  posts_seq : Z
}.

(** [init_db] on a fresh file. *)
Definition empty_tables : tables :=
  {| users := []; posts := []; users_seq := 0; posts_seq := 0 |}.

(** [AUTOINCREMENT]: one more than the largest rowid that ever existed. *)
Definition next_rowid (seq : Z) (ids : list Z) : Z :=
  1 + foldr Z.max seq ids.

(** A row of the feed query: [(p.id, p.content, p.media_filename,
    p.created_at, u.username)]. *)
Record feed_row := {
  f_id : Z;
  f_content : string;
  f_media_filename : option string;
  f_created_at : Z;
  f_username : string
}.

Definition feed_of (p : post_row) (u : user_row) : feed_row :=
  {| f_id := p_id p; f_content := p_content p;
     f_media_filename := p_media_filename p;
     f_created_at := p_created_at p; f_username := u_username u |}.

(** [ORDER BY p.created_at DESC]: a row may precede another when its
    [created_at] is not smaller. *)
Definition created_desc (a b : feed_row) : Prop :=
  f_created_at b <= f_created_at a.

#[global] Instance created_desc_dec : RelDecision created_desc.
Proof. intros a b. unfold created_desc. apply _. Defined.

(** [FROM posts p JOIN users u ON p.user_id = u.id]: the inner join, as a
    nested loop over both tables. *)
Definition join_posts_users (t : tables) : list feed_row :=
  flat_map
    (fun p => map (feed_of p)
                (filter (fun u => p_user_id p = u_id u) (users t)))
    (posts t).

(** [ORDER BY ... DESC] as SQLite's sorter runs it on this query: rows
    reach the sorter in the order of the join, and a row is placed in
    front of the rows it does not come after, so rows with equal
    [created_at] keep the order of the join.  (SQL itself leaves the order
    among such rows open; no statement below depends on it.) *)
Fixpoint insert_desc (r : feed_row) (l : list feed_row) : list feed_row :=
  match l with
  | [] => [r]
  | x :: l' =>
      if bool_decide (f_created_at x <= f_created_at r) then r :: l
      else x :: insert_desc r l'
  end.

Definition sort_desc (l : list feed_row) : list feed_row :=
  foldr insert_desc [] l.

(** The query of [index] (lines 55-58). *)
Definition list_feed (t : tables) : list feed_row :=
  sort_desc (join_posts_users t).

(** [SELECT id FROM users WHERE username = ? OR email = ?] (line 76); text
    columns compare bytewise. *)
Definition select_by_username_or_email (t : tables) (username email : string)
  : list Z :=
  map u_id
    (filter (fun u => u_username u = username ∨ u_email u = email) (users t)).

(** [SELECT id, password_hash FROM users WHERE username = ?] (line 104). *)
Definition select_by_username (t : tables) (username : string)
  : list (Z * string) :=
  map (fun u => (u_id u, u_password_hash u))
    (filter (fun u => u_username u = username) (users t)).

(** [cursor.fetchone()]. *)
Definition fetchone {A} (rows : list A) : option A := head rows.

(** ** Exceptions, sessions, requests *)

Inductive exn :=
| BadRequestKeyError (key : string)   (* request.form[key], key missing *)
| KeyError (key : string)             (* session[key], key missing *)
| OperationalError (msg : string)     (* sqlite3: no such table *)
| IntegrityError (msg : string)       (* sqlite3: constraint failed *)
| OSError (msg : string).             (* file.save: the open call failed *)

(** [INSERT INTO users (username, email, password_hash)] (line 84) under the
    two [UNIQUE] constraints of the schema. *)
Definition insert_user (t : tables) (username email password_hash : string)
    (now : Z) : exn + tables :=
  if bool_decide (Exists (fun u => u_username u = username) (users t)) then
    inl (IntegrityError "UNIQUE constraint failed: users.username")
  else if bool_decide (Exists (fun u => u_email u = email) (users t)) then
    inl (IntegrityError "UNIQUE constraint failed: users.email")
  else
    let i := next_rowid (users_seq t) (map u_id (users t)) in
    inr {| users := users t ++
                    [{| u_id := i; u_username := username; u_email := email;
                        u_password_hash := password_hash;
                        u_created_at := now |}];
           posts := posts t;
           users_seq := i;
           posts_seq := posts_seq t |}.

(** [INSERT INTO posts (user_id, content, media_filename)] (line 146).
    SQLite does not enforce the [FOREIGN KEY] clause unless the pragma is
    switched on, which the program never does. *)
Definition insert_post (t : tables) (user_id : Z) (content : string)
    (media_filename : option string) (now : Z) : tables :=
  let i := next_rowid (posts_seq t) (map p_id (posts t)) in
  {| users := users t;
     posts := posts t ++
              [{| p_id := i; p_user_id := user_id; p_content := content;
                  p_media_filename := media_filename;
                  p_created_at := now |}];
     users_seq := users_seq t;
     posts_seq := i |}.

(** Flask's [session].  The handlers use two keys, ['user_id'] (only ever
    assigned an [INTEGER PRIMARY KEY] value, line 109) and ['username']
    (only ever a form string, line 110); [flash] queues its messages in
    the session under Flask's own key; [s_other] holds whatever else the
    cookie carries. *)
Record session_t := {
  s_user_id : option Z;
  s_username : option string;
  s_flashes : list string;
  s_other : gmap string string
}.

Definition empty_session : session_t :=
  {| s_user_id := None; s_username := None; s_flashes := []; s_other := ∅ |}.

Inductive http_method := GET | POST.

#[global] Instance http_method_eq_dec : EqDecision http_method.
Proof. solve_decision. Defined.

(** An uploaded file, werkzeug's [FileStorage]. *)
Record FileStorage := {
  filename : string;
  stream : string
}.

Record request := {
  method : http_method;
  form : gmap string string;
  files : gmap string FileStorage
}.

(** [datetime.now()]. *)
Record datetime := {
  year : nat; month : nat; day : nat;
  hour : nat; minute : nat; second : nat
}.

(** [dt.strftime('%Y%m%d_%H%M%S')] (line 138).  [%Y] is the plain decimal
    year, the other fields are two digits wide. *)
Definition strftime (dt : datetime) : string :=
  PyStr.dec (year dt) +:+ PyStr.dec2 (month dt) +:+ PyStr.dec2 (day dt)
  +:+ "_" +:+
  PyStr.dec2 (hour dt) +:+ PyStr.dec2 (minute dt) +:+ PyStr.dec2 (second dt).

(** What the surroundings supply to one request. *)
Record env := {
  current_timestamp : Z;   (* SQLite's CURRENT_TIMESTAMP *)
  now : datetime;          (* datetime.now() *)
  salt : string;           (* randomness drawn by generate_password_hash *)
  storage_accepts : string -> bool
    (* whether the filesystem lets a file be created at the path: it
       refuses, for one, a name longer than it can hold *)
}.

(** The werkzeug functions the handlers import (lines 3-4). *)
Record werkzeug := {
  generate_password_hash : string -> string -> string;  (* salt, password *)
  check_password_hash : string -> string -> bool;       (* hash, password *)
  secure_filename : string -> string
}.

(** [os.path.join(a, b)] for a non-empty [a] without trailing slash. *)
Definition path_join (a b : string) : string :=
  match b with
  | String "/" _ => b
  | _ => a +:+ "/" +:+ b
  end.

(** The routes declared by the [@app.route] decorators. *)
Definition url_for (endpoint : string) : string :=
  if decide (endpoint = "index") then "/" else "/" +:+ endpoint.

Inductive response :=
| Redirect (location : string)
| Render (template : string) (posts : option (list feed_row)).

(** ** The world a handler runs in, and the handler monad *)

(** Instrumentation: the externally visible actions of a handler, oldest
    first. *)
Inductive statement :=
| SelectDuplicate | InsertUser | SelectLogin | SelectFeed | InsertPost.

Inductive event :=
| EvConnect                      (* sqlite3.connect('voar.db') *)
| EvExecute (s : statement)      (* cursor.execute, statement completed *)
| EvCommit                       (* conn.commit() *)
| EvClose                        (* conn.close() *)
| EvSave (path : string).        (* file.save(path) *)

(** [database = None] is a [voar.db] without the two tables: [init_db] is
    called only under [if __name__ == '__main__'] (lines 156-158), and
    [sqlite3.connect] creates an empty file when there is none. *)
Record world := {
  database : option tables;
  session : session_t;
  uploads : gmap string string;   (* path -> content, Media Storage *)
  open_conns : nat;               (* connections opened and not yet closed *)
  log : list event
}.

Inductive outcome (A : Type) :=
| Returns (a : A)
| Raises (e : exn).
Arguments Returns {A} a.
Arguments Raises {A} e.

(** A computation reads and updates the world and either returns or
    raises; what was done before a [raise] stays done. *)
Definition M (A : Type) : Type := world -> outcome A * world.

Definition ret {A} (a : A) : M A := fun w => (Returns a, w).

Definition raise {A} (e : exn) : M A := fun w => (Raises e, w).

Definition bind {A B} (m : M A) (k : A -> M B) : M B :=
  fun w =>
    match m w with
    | (Returns a, w') => k a w'
    | (Raises e, w') => (Raises e, w')
    end.

Declare Scope handler_scope.
Delimit Scope handler_scope with handler.
Notation "x <- m ;; k" := (bind m (fun x => k))
  (at level 100, m at next level, right associativity) : handler_scope.
Notation "m ;;; k" := (bind m (fun _ => k))
  (at level 100, right associativity) : handler_scope.

Definition with_database (d : option tables) (w : world) : world :=
  {| database := d; session := session w; uploads := uploads w;
     open_conns := open_conns w; log := log w |}.

Definition with_session (s : session_t) (w : world) : world :=
  {| database := database w; session := s; uploads := uploads w;
     open_conns := open_conns w; log := log w |}.

Definition with_uploads (u : gmap string string) (w : world) : world :=
  {| database := database w; session := session w; uploads := u;
     open_conns := open_conns w; log := log w |}.

Definition with_open_conns (n : nat) (w : world) : world :=
  {| database := database w; session := session w; uploads := uploads w;
     open_conns := n; log := log w |}.

Definition emit (ev : event) : M unit :=
  fun w => (Returns tt,
            {| database := database w; session := session w;
               uploads := uploads w; open_conns := open_conns w;
               log := log w ++ [ev] |}).

Local Open Scope handler_scope.

(** [conn = sqlite3.connect('voar.db')]. *)
Definition connect : M unit :=
  fun w => emit EvConnect (with_open_conns (S (open_conns w)) w).

(** [conn.close()]. *)
Definition close : M unit :=
  fun w => emit EvClose (with_open_conns (pred (open_conns w)) w).

(** [conn.commit()].  Every [INSERT] of the program is followed at once by
    the commit on the same connection, so the tables carry the committed
    content and the commit itself is recorded only. *)
Definition commit : M unit := emit EvCommit.

(** A statement over existing tables; on a file without them sqlite3
    raises before anything is read or written. *)
Definition execute {A} (s : statement) (run : tables -> exn + (A * tables))
  : M A :=
  fun w =>
    match database w with
    | None => (Raises (OperationalError "no such table"), w)
    | Some t =>
        match run t with
        | inl e => (Raises e, w)
        | inr (a, t') =>
            (Returns a, snd (emit (EvExecute s) (with_database (Some t') w)))
        end
    end.

(** A [SELECT]. *)
Definition query {A} (s : statement) (q : tables -> A) : M A :=
  execute s (fun t => inr (q t, t)).

(** [request.form[key]]. *)
Definition form_get (req : request) (key : string) : M string :=
  match form req !! key with
  | Some v => ret v
  | None => raise (BadRequestKeyError key)
  end.

Definition get_session : M session_t := fun w => (Returns (session w), w).

Definition put_session (s : session_t) : M unit :=
  fun w => (Returns tt, with_session s w).

(** [flash(msg)]. *)
Definition flash (msg : string) : M unit :=
  s <- get_session ;;
  put_session {| s_user_id := s_user_id s; s_username := s_username s;
                 s_flashes := s_flashes s ++ [msg]; s_other := s_other s |}.

(** [session['user_id'] = v]. *)
Definition session_set_user_id (v : Z) : M unit :=
  s <- get_session ;;
  put_session {| s_user_id := Some v; s_username := s_username s;
                 s_flashes := s_flashes s; s_other := s_other s |}.

(** [session['username'] = v]. *)
Definition session_set_username (v : string) : M unit :=
  s <- get_session ;;
  put_session {| s_user_id := s_user_id s; s_username := Some v;
                 s_flashes := s_flashes s; s_other := s_other s |}.

(** [session['user_id']]. *)
Definition session_user_id : M Z :=
  s <- get_session ;;
  match s_user_id s with
  | Some v => ret v
  | None => raise (KeyError "user_id")
  end.

(** [session.clear()]. *)
Definition session_clear : M unit := put_session empty_session.

(** [file.save(path)] (line 140): the file is opened for writing, which
    creates or truncates it, and the upload is copied in.  When the
    filesystem refuses the path the open call raises and nothing is
    stored. *)
Definition save (e : env) (file : FileStorage) (path : string) : M unit :=
  fun w =>
    if storage_accepts e path then
      emit (EvSave path)
        (with_uploads (<[path := stream file]> (uploads w)) w)
    else (Raises (OSError "cannot open the file for writing"), w).

(** [bool(file)] for a [FileStorage]: whether it has a filename. *)
Definition truthy (file : FileStorage) : bool :=
  bool_decide (filename file ≠ "").

(** ** The handlers of [app.py] *)

Inductive route := Index | Register | Login | Logout | CreatePost.

Section Handlers.

Context (wz : werkzeug).

(** Lines 46-63. *)
Definition index (req : request) (e : env) : M response :=
  s <- get_session ;;
  if bool_decide (s_user_id s = None) then
    ret (Redirect (url_for "login"))
  else
    connect ;;;
    posts <- query SelectFeed list_feed ;;
    close ;;;
    ret (Render "index.html" (Some posts)).

(** Lines 65-93. *)
Definition register (req : request) (e : env) : M response :=
  if decide (method req = POST) then
    username <- form_get req "username" ;;
    email <- form_get req "email" ;;
    password <- form_get req "password" ;;
    connect ;;;
    rows <- query SelectDuplicate
              (fun t => select_by_username_or_email t username email) ;;
    if bool_decide (is_Some (fetchone rows)) then
      flash "Username or email already exists!" ;;;
      close ;;;
      ret (Render "register.html" None)
    else
      let password_hash := generate_password_hash wz (salt e) password in
      execute InsertUser
        (fun t =>
           match insert_user t username email password_hash
                   (current_timestamp e) with
           | inl x => inl x
           | inr t' => inr (tt, t')
           end) ;;;
      commit ;;;
      close ;;;
      flash "Registration successful! Please login." ;;;
      ret (Redirect (url_for "login"))
  else
    ret (Render "register.html" None).

(** Lines 95-116. *)
Definition login (req : request) (e : env) : M response :=
  if decide (method req = POST) then
    username <- form_get req "username" ;;
    password <- form_get req "password" ;;
    connect ;;;
    rows <- query SelectLogin (fun t => select_by_username t username) ;;
    let user := fetchone rows in
    close ;;;
    match user with
    | Some (uid, password_hash) =>
        if check_password_hash wz password_hash password then
          session_set_user_id uid ;;;
          session_set_username username ;;;
          flash "Login successful!" ;;;
          ret (Redirect (url_for "index"))
        else
          flash "Invalid username or password!" ;;;
          ret (Render "login.html" None)
    | None =>
        flash "Invalid username or password!" ;;;
        ret (Render "login.html" None)
    end
  else
    ret (Render "login.html" None).

(** Lines 118-122. *)
Definition logout (req : request) (e : env) : M response :=
  session_clear ;;;
  flash "You have been logged out." ;;;
  ret (Redirect (url_for "login")).

(** Lines 133-141: the upload branch of [create_post]; the result is the
    local [media_filename]. *)
Definition handle_upload (req : request) (e : env) : M (option string) :=
  match files req !! "media" with
  | Some file =>
      if truthy file && bool_decide (filename file ≠ "")
         && allowed_file (filename file) then
        let name := secure_filename wz (filename file) in
        let timestamp := strftime (now e) in
        let name := timestamp +:+ "_" +:+ name in
        save e file (path_join UPLOAD_FOLDER name) ;;;
        ret (Some name)
      else ret None
  | None => ret None
  end.

(** Lines 124-154. *)
Definition create_post (req : request) (e : env) : M response :=
  s <- get_session ;;
  if bool_decide (s_user_id s = None) then
    ret (Redirect (url_for "login"))
  else if decide (method req = POST) then
    content <- form_get req "content" ;;
    media_filename <- handle_upload req e ;;
    connect ;;;
    user_id <- session_user_id ;;
    execute InsertPost
      (fun t => inr (tt, insert_post t user_id content media_filename
                           (current_timestamp e))) ;;;
    commit ;;;
    close ;;;
    flash "Post created successfully!" ;;;
    ret (Redirect (url_for "index"))
  else
    ret (Render "create_post.html" None).

Definition handler (r : route) : request -> env -> M response :=
  match r with
  | Index => index
  | Register => register
  | Login => login
  | Logout => logout
  | CreatePost => create_post
  end.

End Handlers.

(** ** Notions the statements below are phrased with *)

(** A media upload that [create_post] accepts: the request carries a file
    under ['media'] whose name passes [allowed_file]. *)
Definition upload_accepted (req : request) (file : FileStorage) : Prop :=
  files req !! "media" = Some file /\ allowed_file (filename file) = true.

(** No media upload, or one whose name fails [allowed_file]. *)
Definition upload_dropped (req : request) : Prop :=
  match files req !! "media" with
  | Some file => allowed_file (filename file) = false
  | None => True
  end.

(** The extension of a file name as the specification words it: the part
    after the last dot.  [has_extension f base ext] reads [f = base.ext]
    with no dot in [ext]. *)
Definition has_extension (f base ext : string) : Prop :=
  f = base +:+ "." +:+ ext /\ PyStr.contains "." ext = false.









(** A request whose media upload, if it is one [create_post] accepts, can
    be written where [create_post] puts it. *)
Definition upload_storable (wz : werkzeug) (req : request) (e : env) : Prop :=
  forall file, files req !! "media" = Some file ->
    allowed_file (filename file) = true ->
    storage_accepts e
      ("static/uploads/" +:+ strftime (now e) +:+ "_" +:+
       secure_filename wz (filename file)) = true.

(** The constraints the schema makes SQLite enforce on [users]. *)
Definition users_unique (t : tables) : Prop :=
  NoDup (map u_id (users t)) /\ NoDup (map u_username (users t)) /\
  NoDup (map u_email (users t)).

(** Every post has an author row (the [FOREIGN KEY] clause). *)
Definition posts_have_authors (t : tables) : Prop :=
  Forall (fun p => exists u, u ∈ users t /\ u_id u = p_user_id p) (posts t).

(** The outcome [InvalidCredentials] of a login submission: the form is
    rendered again with the flash message of line 114. *)
Definition invalid_credentials (w : world) (r : outcome response * world)
  : Prop :=
  fst r = Returns (Render "login.html" None) /\
  s_flashes (session (snd r)) =
    (s_flashes (session w) ++ ["Invalid username or password!"])%list.

(** The outcome [DuplicateUser] of a registration: the form is rendered
    again with the flash message of line 78. *)
Definition duplicate_user (w : world) (r : outcome response * world) : Prop :=
  fst r = Returns (Render "register.html" None) /\
  s_flashes (session (snd r)) =
    (s_flashes (session w) ++ ["Username or email already exists!"])%list.

(** A request created the post [p]: the posts table grew by exactly that
    row, at its end, and the users table is as before. *)
Definition created_post (w w' : world) (p : post_row) : Prop :=
  exists t t', database w = Some t /\ database w' = Some t' /\
               posts t' = (posts t ++ [p])%list /\ users t' = users t.

(** ** Start-up *)

(** The two [CREATE TABLE IF NOT EXISTS] statements of [init_db] (lines
    27-41): a file that has the tables keeps them with their rows, a file
    without them gets both, empty.  (The [log] records the statements of
    the request handlers only.) *)
Definition create_tables_if_not_exists : M unit :=
  fun w =>
    (Returns tt,
     with_database
       (Some (match database w with Some t => t | None => empty_tables end))
       w).

(** Lines 22-44. *)
Definition init_db : M unit :=
  (connect ;;;
   create_tables_if_not_exists ;;;
   commit ;;;
   close)%handler.

(** No database file yet, no upload, no cookie. *)
Definition blank_world : world :=
  {| database := None; session := empty_session; uploads := ∅;
     open_conns := 0; log := [] |}.

(** The world in which [app.run] starts serving when the program is run
    as a script (lines 156-158). *)
Definition start_world : world := snd (init_db blank_world).

(** ** What a request can do to the state *)

(** The ways in which one request changes database, upload folder and the
    identity held in the session, over tables [t]. *)
Inductive effect (t : tables) (w w' : world) : Prop :=
| effect_quiet :
    database w' = Some t -> uploads w' = uploads w ->
    s_user_id (session w') = s_user_id (session w) ->
    s_username (session w') = s_username (session w) ->
    s_other (session w') = s_other (session w) ->
    effect t w w'
| effect_logout :
    database w' = Some t -> uploads w' = uploads w ->
    session w' = {| s_user_id := None; s_username := None;
                    s_flashes := ["You have been logged out."];
                    s_other := ∅ |} ->
    effect t w w'
| effect_login (uid : Z) (h username : string) :
    database w' = Some t -> uploads w' = uploads w ->
    fetchone (select_by_username t username) = Some (uid, h) ->
    s_user_id (session w') = Some uid ->
    s_username (session w') = Some username ->
    s_other (session w') = s_other (session w) ->
    effect t w w'
| effect_register (t' : tables) (username email h : string) (ts : Z) :
    insert_user t username email h ts = inr t' ->
    database w' = Some t' -> uploads w' = uploads w ->
    s_user_id (session w') = s_user_id (session w) ->
    s_username (session w') = s_username (session w) ->
    s_other (session w') = s_other (session w) ->
    effect t w w'
| effect_post (uid : Z) (content : string) (ts : Z) :
    s_user_id (session w) = Some uid ->
    database w' = Some (insert_post t uid content None ts) ->
    uploads w' = uploads w ->
    s_user_id (session w') = s_user_id (session w) ->
    s_username (session w') = s_username (session w) ->
    s_other (session w') = s_other (session w) ->
    effect t w w'
| effect_post_media (uid : Z) (content : string) (ts : Z) (dt : datetime)
    (rest data : string) :
    s_user_id (session w) = Some uid ->
    database w' =
      Some (insert_post t uid content (Some (strftime dt +:+ rest)) ts) ->
    uploads w' =
      <["static/uploads/" +:+ strftime dt +:+ rest := data]> (uploads w) ->
    s_user_id (session w') = s_user_id (session w) ->
    s_username (session w') = s_username (session w) ->
    s_other (session w') = s_other (session w) ->
    effect t w w'.

(** ** Invariants of a running server *)

(** A cookie names a user only if that user exists, and then carries that
    user's name. *)
Definition session_valid (t : tables) (s : session_t) : Prop :=
  forall uid, s_user_id s = Some uid ->
    exists u, u ∈ users t /\ u_id u = uid /\
              s_username s = Some (u_username u).

(** Every media file a post refers to is in the upload folder. *)
Definition media_stored (t : tables) (files : gmap string string) : Prop :=
  Forall (fun p => forall name, p_media_filename p = Some name ->
                     is_Some (files !! ("static/uploads/" +:+ name)))
         (posts t).

(** The state of a server and of the cookies its clients may hold. *)
Definition world_ok (w : world) (cookies : list session_t) : Prop :=
  exists t, database w = Some t /\
            users_unique t /\ NoDup (map p_id (posts t)) /\
            posts_have_authors t /\ media_stored t (uploads w) /\
            Forall (session_valid t) cookies /\
            open_conns w = 0%nat.

(** The worlds a server started as a script goes through, with the
    cookies issued so far: each request comes with any cookie some client
    still holds (the empty one for a new client), and the cookie it leaves
    is issued. *)
Inductive reachable (wz : werkzeug) : world -> list session_t -> Prop :=
| reachable_start : reachable wz start_world [empty_session]
| reachable_request w cookies c r req e :
    reachable wz w cookies -> c ∈ cookies ->
    reachable wz (snd (handler wz r req e (with_session c w)))
      (session (snd (handler wz r req e (with_session c w))) :: cookies).

(** ** Concrete data, used to run the handlers *)

Module Sample.

(** A stand-in for werkzeug, good enough to evaluate the handlers: the
    hash is salt and password side by side. *)
Definition wz : werkzeug :=
  {| generate_password_hash := fun s p => s +:+ "$" +:+ p;
     check_password_hash := fun h p => bool_decide (h = "na$" +:+ p);
     secure_filename := fun s => s |}.

Definition e0 : env :=
  {| current_timestamp := 100;
     now := {| year := 2024; month := 3; day := 7;
               hour := 9; minute := 5; second := 0 |};
     salt := "na";
     storage_accepts := fun path => Nat.leb (String.length path) 270 |}.

Definition mk_request (m : http_method) (f : list (string * string))
    (fl : list (string * FileStorage)) : request :=
  {| method := m; form := list_to_map f; files := list_to_map fl |}.

Definition ann : user_row :=
  {| u_id := 1; u_username := "ann"; u_email := "ann@example.org";
     u_password_hash := "na$pw"; u_created_at := 90 |}.

Definition bob : user_row :=
  {| u_id := 2; u_username := "bob"; u_email := "bob@example.org";
     u_password_hash := "na$hunter2"; u_created_at := 95 |}.

Definition t0 : tables :=
  {| users := [ann; bob];
     posts := [ {| p_id := 1; p_user_id := 2; p_content := "first";
                   p_media_filename := None; p_created_at := 96 |};
                {| p_id := 2; p_user_id := 1; p_content := "second";
                   p_media_filename := None; p_created_at := 99 |} ];
     users_seq := 2; posts_seq := 2 |}.

(** Nobody logged in; tables present. *)
Definition w_anon : world :=
  {| database := Some t0; session := empty_session; uploads := ∅;
     open_conns := 0; log := [] |}.

(** Ann logged in. *)
Definition w_ann : world :=
  {| database := Some t0;
     session := {| s_user_id := Some 1; s_username := Some "ann";
                   s_flashes := []; s_other := {[ "theme" := "dark" ]} |};
     uploads := ∅; open_conns := 0; log := [] |}.

(** The application imported without [init_db] having run. *)
Definition w_no_tables : world :=
  {| database := None; session := empty_session; uploads := ∅;
     open_conns := 0; log := [] |}.

Definition register_ann_again : request :=
  mk_request POST
    [("username", "ann"); ("email", "other@example.org"); ("password", "x")]
    [].

Definition login_bob : request :=
  mk_request POST [("username", "bob"); ("password", "hunter2")] [].

Definition login_bob_wrong : request :=
  mk_request POST [("username", "bob"); ("password", "guess")] [].

Definition cat_jpg : FileStorage :=
  {| filename := "cat.JPG"; stream := "JFIF" |}.

Definition setup_exe : FileStorage :=
  {| filename := "setup.exe"; stream := "MZ" |}.

(** A picture under a name of 304 characters, longer than the sample
    filesystem holds. *)
Definition long_png : FileStorage :=
  {| filename := String.concat "" (replicate 300 "a") +:+ ".png";
     stream := "PNG" |}.

Definition post_with (content : string) (fl : list (string * FileStorage))
  : request :=
  mk_request POST [("content", content)] fl.

Definition register_cyd : request :=
  mk_request POST
    [("username", "cyd"); ("email", "cyd@example.org"); ("password", "pw3")]
    [].

Definition login_cyd : request :=
  mk_request POST [("username", "cyd"); ("password", "pw3")] [].

(** A server started as a script, after cyd registered, logged in and
    posted, each request made with the cookie the one before left. *)
Definition w_cyd_registered : world :=
  snd (handler wz Register register_cyd e0
         (with_session empty_session start_world)).

Definition w_cyd_logged_in : world :=
  snd (handler wz Login login_cyd e0
         (with_session (session w_cyd_registered) w_cyd_registered)).

Definition w_cyd_posted : world :=
  snd (handler wz CreatePost (post_with "hello" []) e0
         (with_session (session w_cyd_logged_in) w_cyd_logged_in)).

End Sample.

(** * Properties *)

(** ** The file-name tests of [allowed_file] *)

Example allowed_file_jpg : allowed_file "cat.JPG" = true.
Proof. vm_compute. reflexivity. Qed.

Example allowed_file_exe : allowed_file "setup.exe" = false.
Proof. vm_compute. reflexivity. Qed.

Example allowed_file_noext : allowed_file "README" = false.
Proof. vm_compute. reflexivity. Qed.

Example allowed_file_two_dots : allowed_file "a.png.exe" = false.
Proof. vm_compute. reflexivity. Qed.

Example allowed_file_hidden : allowed_file ".gif" = true.
Proof. vm_compute. reflexivity. Qed.

Example strftime_sample :
  strftime (now Sample.e0) = "20240307_090500".
Proof. vm_compute. reflexivity. Qed.

Section PyStrFacts.

Import PyStr.

Lemma rcut_none c s : rcut c s = None <-> contains c s = false.
Proof.
  induction s as [|d s IH]; simpl; [tauto|].
  destruct (rcut c s) as [[h t]|].
  - destruct (Ascii.eqb d c); split; try discriminate.
    intros H. apply IH in H. discriminate H.
  - destruct (Ascii.eqb d c); split; try discriminate; try tauto.
Qed.

Lemma rcut_some c s h t :
  rcut c s = Some (h, t) <-> s = h +:+ String c t /\ contains c t = false.
Proof.
  revert h. induction s as [|d s IH]; intros h; simpl.
  - split; [discriminate|]. intros [H _]. destruct h; discriminate H.
  - destruct (rcut c s) as [[h' t']|] eqn:Hr.
    + split.
      * intros [= <- <-]. destruct (proj1 (IH h') eq_refl) as [-> Hc].
        split; [reflexivity | exact Hc].
      * intros [Hs Hc]. destruct h as [|d' h]; simpl in Hs.
        -- injection Hs as -> ->. apply rcut_none in Hc. congruence.
        -- injection Hs as -> Hs.
           assert (Some (h', t') = Some (h, t)) as [= -> ->]
             by (apply IH; split; assumption).
           reflexivity.
    + destruct (Ascii.eqb_spec d c) as [->|Hne]; split.
      * intros [= <- <-]. split; [reflexivity|]. apply rcut_none, Hr.
      * intros [Hs Hc]. destruct h as [|d' h]; simpl in Hs.
        -- injection Hs as ->. reflexivity.
        -- injection Hs as -> Hs.
           assert (None = Some (h, t)) by (apply IH; split; assumption).
           discriminate.
      * discriminate.
      * intros [Hs Hc]. destruct h as [|d' h]; simpl in Hs.
        -- injection Hs as -> ->. contradiction.
        -- injection Hs as -> Hs.
           assert (None = Some (h, t)) by (apply IH; split; assumption).
           discriminate.
Qed.

End PyStrFacts.

(** A name without a dot is never allowed. *)
Lemma allowed_file_no_dot f :
  PyStr.contains "." f = false -> allowed_file f = false.
Proof. intros H. unfold allowed_file. rewrite H. reflexivity. Qed.

(** For a name with a dot, [allowed_file] tests the lowered text after the
    last dot against the allow-list. *)
Lemma allowed_file_extension f base ext :
  has_extension f base ext ->
  allowed_file f = bool_decide (PyStr.lower ext ∈ ALLOWED_EXTENSIONS).
Proof.
  intros Hext.
  assert (Hr : PyStr.rcut "." f = Some (base, ext)).
  { apply rcut_some. destruct Hext as [-> Hc].
    split; [reflexivity | exact Hc]. }
  assert (Hc : PyStr.contains "." f = true).
  { destruct (PyStr.contains "." f) eqn:E; [reflexivity|].
    apply rcut_none in E. congruence. }
  unfold allowed_file, PyStr.rsplit1. rewrite Hc, Hr. reflexivity.
Qed.

Lemma allowed_file_nonempty f : allowed_file f = true -> f ≠ "".
Proof. intros Ha He. rewrite He in Ha. discriminate Ha. Qed.

(** ** The timestamp prefix *)

Section Timestamp.

Import PyStr.

Lemma is_digit_digit n : is_digit (digit n) = true.
Proof.
  unfold is_digit, digit.
  assert (Hlt : (n mod 10 < 10)%nat) by (apply Nat.mod_upper_bound; lia).
  rewrite nat_ascii_embedding by lia.
  apply andb_true_intro. split; apply Nat.leb_le; lia.
Qed.

Lemma dec_go_head fuel n acc :
  (exists c r, acc = String c r /\ is_digit c = true) ->
  exists c r, dec_go fuel n acc = String c r /\ is_digit c = true.
Proof.
  revert n acc. induction fuel as [|fuel IH]; intros n acc Hacc; simpl.
  - exact Hacc.
  - destruct (n <? 10)%nat.
    + eauto using is_digit_digit.
    + apply IH. eauto using is_digit_digit.
Qed.

Lemma dec_head n : exists c r, dec n = String c r /\ is_digit c = true.
Proof.
  unfold dec. simpl. destruct (n <? 10)%nat.
  - eauto using is_digit_digit.
  - apply dec_go_head. eauto using is_digit_digit.
Qed.

Lemma strftime_head dt :
  exists c r, strftime dt = String c r /\ is_digit c = true.
Proof.
  unfold strftime. destruct (dec_head (year dt)) as (c & r & -> & Hc).
  simpl. eauto.
Qed.





















End Timestamp.

(** The saved file lies directly in the upload folder: the name starts
    with a digit of the timestamp, so [os.path.join] never takes it for an
    absolute path. *)
Lemma path_join_upload dt rest :
  path_join UPLOAD_FOLDER (strftime dt +:+ rest)
  = "static/uploads/" +:+ strftime dt +:+ rest.
Proof.
  destruct (strftime_head dt) as (c & r & -> & Hc). simpl.
  unfold path_join.
  destruct c as [[] [] [] [] [] [] [] []]; try discriminate Hc; reflexivity.
Qed.

(** ** The queries *)

#[global] Instance created_desc_total : Total created_desc.
Proof. intros a b. unfold created_desc. lia. Qed.

#[global] Instance created_desc_trans : Transitive created_desc.
Proof. intros a b c. unfold created_desc. lia. Qed.

Lemma head_filter_is_Some {A B} (P : A -> Prop) `{!forall x, Decision (P x)}
    (f : A -> B) (l : list A) :
  is_Some (head (map f (filter P l))) <-> exists x, x ∈ l /\ P x.
Proof.
  split.
  - intros [y Hy]. destruct (filter P l) as [|x l'] eqn:E; [discriminate|].
    exists x. assert (Hx : x ∈ filter P l) by (rewrite E; left).
    apply list_elem_of_filter in Hx. tauto.
  - intros (x & Hx & HP).
    assert (Hin : x ∈ filter P l) by (apply list_elem_of_filter; tauto).
    destruct (filter P l) as [|z l']; [inversion Hin | simpl; eauto].
Qed.

(** The duplicate check finds a row exactly when some user has the
    username or the email. *)
Lemma select_duplicate_found t username email :
  is_Some (fetchone (select_by_username_or_email t username email)) <->
  exists u, u ∈ users t /\ (u_username u = username \/ u_email u = email).
Proof.
  unfold fetchone, select_by_username_or_email. apply head_filter_is_Some.
Qed.

(** A row fetched by the login query belongs to a user of that name. *)
Lemma select_login_sound t username uid h :
  fetchone (select_by_username t username) = Some (uid, h) ->
  exists u, u ∈ users t /\ u_username u = username /\
            u_id u = uid /\ u_password_hash u = h.
Proof.
  unfold fetchone, select_by_username. intros H.
  destruct (filter _ (users t)) as [|x l'] eqn:E; [discriminate|].
  simpl in H. injection H as <- <-.
  assert (Hx : x ∈ filter (fun u => u_username u = username) (users t))
    by (rewrite E; left).
  apply list_elem_of_filter in Hx. exists x. tauto.
Qed.

Lemma select_login_none t username :
  fetchone (select_by_username t username) = None <->
  forall u, u ∈ users t -> u_username u <> username.
Proof.
  split.
  - intros H u Hu Hn.
    assert (Hs : is_Some (fetchone (select_by_username t username))).
    { apply head_filter_is_Some. eauto. }
    rewrite H in Hs. destruct Hs as [? [=]].
  - intros H. destruct (fetchone _) as [[uid h]|] eqn:E; [|reflexivity].
    apply select_login_sound in E as (u & Hu & Hn & _).
    exfalso. exact (H u Hu Hn).
Qed.

(** Under the [UNIQUE] constraint on [username] the login query fetches the
    one user of that name. *)
Lemma select_login_unique t u :
  NoDup (map u_username (users t)) -> u ∈ users t ->
  fetchone (select_by_username t (u_username u))
  = Some (u_id u, u_password_hash u).
Proof.
  unfold fetchone, select_by_username.
  induction (users t) as [|x l IH]; intros Hnd Hu; [inversion Hu|].
  simpl in Hnd. apply NoDup_cons in Hnd as [Hx Hnd].
  rewrite filter_cons. destruct (decide (u_username x = u_username u)) as [E|E].
  - simpl. apply list_elem_of_In in Hu. destruct Hu as [->|Hu]; [reflexivity|].
    exfalso. apply Hx. rewrite E. apply list_elem_of_In, in_map, Hu.
  - apply IH; [exact Hnd|].
    apply list_elem_of_In in Hu. destruct Hu as [->|Hu]; [congruence|].
    apply list_elem_of_In, Hu.
Qed.

(** ** Running the handlers *)

Lemma url_for_index : url_for "index" = "/".
Proof. reflexivity. Qed.

Lemma url_for_login : url_for "login" = "/login".
Proof. reflexivity. Qed.

Ltac run_monad :=
  cbv beta delta [bind ret raise connect close commit query execute emit flash
    get_session put_session session_set_user_id session_set_username
    session_user_id session_clear save form_get
    with_database with_session with_uploads with_open_conns] in *;
  simpl in *.

Ltac finish_run :=
  rewrite ?url_for_index, ?url_for_login, <- ?app_assoc; simpl; reflexivity.

Section Runs.

Context (wz : werkzeug).
Implicit Types (req : request) (e : env) (w : world) (t : tables).

Lemma index_run_anonymous req e w :
  s_user_id (session w) = None ->
  index req e w = (Returns (Redirect "/login"), w).
Proof. intros Hs. unfold index. run_monad. rewrite Hs. reflexivity. Qed.

Lemma index_run req e w t uid :
  s_user_id (session w) = Some uid -> database w = Some t ->
  index req e w =
    (Returns (Render "index.html" (Some (list_feed t))),
     {| database := Some t; session := session w; uploads := uploads w;
        open_conns := open_conns w;
        log := log w ++ [EvConnect; EvExecute SelectFeed; EvClose] |}).
Proof.
  intros Hs Hd. unfold index. run_monad. rewrite Hs. simpl.
  rewrite Hd. simpl. finish_run.
Qed.

Lemma create_post_run_anonymous req e w :
  s_user_id (session w) = None ->
  create_post wz req e w = (Returns (Redirect "/login"), w).
Proof. intros Hs. unfold create_post. run_monad. rewrite Hs. reflexivity. Qed.

Lemma create_post_run_accept req e w t uid content file :
  s_user_id (session w) = Some uid -> method req = POST ->
  form req !! "content" = Some content -> database w = Some t ->
  upload_accepted req file ->
  storage_accepts e
    (path_join UPLOAD_FOLDER
       (strftime (now e) +:+ "_" +:+ secure_filename wz (filename file)))
  = true ->
  create_post wz req e w =
    let name :=
      strftime (now e) +:+ "_" +:+ secure_filename wz (filename file) in
    let path := path_join UPLOAD_FOLDER name in
    (Returns (Redirect "/"),
     {| database :=
          Some (insert_post t uid content (Some name) (current_timestamp e));
        session :=
          {| s_user_id := Some uid; s_username := s_username (session w);
             s_flashes := s_flashes (session w) ++
                          ["Post created successfully!"];
             s_other := s_other (session w) |};
        uploads := <[path := stream file]> (uploads w);
        open_conns := open_conns w;
        log := log w ++ [EvSave path; EvConnect; EvExecute InsertPost;
                         EvCommit; EvClose] |}).
Proof.
  intros Hs Hm Hc Hd [Hf Ha] Hst.
  unfold create_post, handle_upload. run_monad.
  rewrite Hs, Hm, Hc, Hf, Ha. simpl.
  unfold truthy.
  rewrite !bool_decide_eq_true_2 by (by apply allowed_file_nonempty).
  simpl. rewrite Hst. simpl. rewrite ?Hs, ?Hd. simpl. rewrite ?Hs.
  finish_run.
Qed.

(** An accepted upload that the filesystem refuses: [file.save] raises
    before the database is opened, and nothing has changed. *)
Lemma create_post_run_refused req e w uid content file :
  s_user_id (session w) = Some uid -> method req = POST ->
  form req !! "content" = Some content ->
  upload_accepted req file ->
  storage_accepts e
    (path_join UPLOAD_FOLDER
       (strftime (now e) +:+ "_" +:+ secure_filename wz (filename file)))
  = false ->
  create_post wz req e w =
    (Raises (OSError "cannot open the file for writing"), w).
Proof.
  intros Hs Hm Hc [Hf Ha] Hst.
  unfold create_post, handle_upload. run_monad.
  rewrite Hs, Hm, Hc, Hf, Ha. simpl.
  unfold truthy.
  rewrite !bool_decide_eq_true_2 by (by apply allowed_file_nonempty).
  simpl. rewrite Hst. reflexivity.
Qed.

Lemma create_post_run_drop req e w t uid content :
  s_user_id (session w) = Some uid -> method req = POST ->
  form req !! "content" = Some content -> database w = Some t ->
  upload_dropped req ->
  create_post wz req e w =
    (Returns (Redirect "/"),
     {| database :=
          Some (insert_post t uid content None (current_timestamp e));
        session :=
          {| s_user_id := Some uid; s_username := s_username (session w);
             s_flashes := s_flashes (session w) ++
                          ["Post created successfully!"];
             s_other := s_other (session w) |};
        uploads := uploads w;
        open_conns := open_conns w;
        log := log w ++ [EvConnect; EvExecute InsertPost;
                         EvCommit; EvClose] |}).
Proof.
  intros Hs Hm Hc Hd Hdrop.
  unfold create_post, handle_upload, upload_dropped in *. run_monad.
  rewrite Hs, Hm, Hc. simpl.
  destruct (files req !! "media") as [file|].
  - rewrite Hdrop, andb_false_r. simpl. rewrite ?Hs, ?Hd. simpl.
    rewrite ?Hs. finish_run.
  - simpl. rewrite ?Hs, ?Hd. simpl. rewrite ?Hs. finish_run.
Qed.

Lemma register_run_duplicate req e w t username email password :
  method req = POST ->
  form req !! "username" = Some username ->
  form req !! "email" = Some email ->
  form req !! "password" = Some password ->
  database w = Some t ->
  (exists u, u ∈ users t /\ (u_username u = username \/ u_email u = email)) ->
  register wz req e w =
    (Returns (Render "register.html" None),
     {| database := Some t;
        session :=
          {| s_user_id := s_user_id (session w);
             s_username := s_username (session w);
             s_flashes := s_flashes (session w) ++
                          ["Username or email already exists!"];
             s_other := s_other (session w) |};
        uploads := uploads w;
        open_conns := open_conns w;
        log := log w ++ [EvConnect; EvExecute SelectDuplicate; EvClose] |}).
Proof.
  intros Hm Hu He Hp Hd Hex. apply select_duplicate_found in Hex.
  unfold register. run_monad. rewrite Hm, Hu, He, Hp. simpl.
  rewrite Hd. simpl.
  rewrite bool_decide_eq_true_2 by exact Hex. simpl. finish_run.
Qed.

Lemma login_run req e w t username password :
  method req = POST ->
  form req !! "username" = Some username ->
  form req !! "password" = Some password ->
  database w = Some t ->
  login wz req e w =
    let w1 := {| database := Some t; session := session w;
                 uploads := uploads w; open_conns := open_conns w;
                 log := log w ++ [EvConnect; EvExecute SelectLogin;
                                  EvClose] |} in
    match fetchone (select_by_username t username) with
    | Some (uid, h) =>
        if check_password_hash wz h password then
          (Returns (Redirect "/"),
           with_session
             {| s_user_id := Some uid; s_username := Some username;
                s_flashes := s_flashes (session w) ++ ["Login successful!"];
                s_other := s_other (session w) |} w1)
        else
          (Returns (Render "login.html" None),
           with_session
             {| s_user_id := s_user_id (session w);
                s_username := s_username (session w);
                s_flashes := s_flashes (session w) ++
                             ["Invalid username or password!"];
                s_other := s_other (session w) |} w1)
    | None =>
        (Returns (Render "login.html" None),
         with_session
           {| s_user_id := s_user_id (session w);
              s_username := s_username (session w);
              s_flashes := s_flashes (session w) ++
                           ["Invalid username or password!"];
              s_other := s_other (session w) |} w1)
    end.
Proof.
  intros Hm Hu Hp Hd. unfold login. run_monad. rewrite Hm, Hu, Hp. simpl.
  rewrite Hd. simpl.
  destruct (fetchone (select_by_username t username)) as [[uid h]|];
    [destruct (check_password_hash wz h password)|]; simpl; finish_run.
Qed.

End Runs.

(** ** Connections *)

Ltac split_paths H :=
  repeat match type of H with
    | context [match ?x with _ => _ end] =>
        lazymatch x with
        | context [match _ with _ => _ end] => fail
        | _ => let E := fresh "E" in destruct x eqn:E; simpl in H
        end
    end.

Lemma insert_user_after_check t username email h ts :
  ¬ is_Some (fetchone (select_by_username_or_email t username email)) ->
  exists t', insert_user t username email h ts = inr t'.
Proof.
  intros Hno. unfold insert_user.
  rewrite select_duplicate_found in Hno.
  rewrite !bool_decide_eq_false_2; [eauto | |].
  - intros Hex. apply Exists_exists in Hex as (u & Hu & He).
    apply Hno. exists u. tauto.
  - intros Hex. apply Exists_exists in Hex as (u & Hu & He).
    apply Hno. exists u. tauto.
Qed.

Lemma handler_connections wz r req e w out w' :
  handler wz r req e w = (out, w') ->
  match out with
  | Returns _ => open_conns w' = open_conns w
  | Raises (BadRequestKeyError _) => open_conns w' = open_conns w
  | Raises (OperationalError _) => open_conns w' = S (open_conns w)
  | Raises (KeyError _) => False
  | Raises (IntegrityError _) => False
  | Raises (OSError _) => open_conns w' = open_conns w
  end.
Proof.
  intros H. destruct r; simpl in H.
  - unfold index in H. run_monad. split_paths H;
      injection H as <- <-; simpl; reflexivity.
  - unfold register in H. run_monad. split_paths H;
      injection H as <- <-; simpl; try reflexivity.
    match goal with
    | E : bool_decide _ = false, E' : insert_user _ _ _ ?h ?ts = inl _ |- _ =>
        apply bool_decide_eq_false in E;
        destruct (insert_user_after_check _ _ _ h ts E) as [t' Ht'];
        congruence
    end.
  - unfold login in H. run_monad. split_paths H;
      injection H as <- <-; simpl; reflexivity.
  - unfold logout in H. run_monad. injection H as <- <-. reflexivity.
  - unfold create_post, handle_upload in H. run_monad. split_paths H;
      try injection H as <- <-; simpl; try reflexivity.
    all: match goal with
         | E : bool_decide (None = None) = false |- _ =>
             rewrite bool_decide_eq_true_2 in E by reflexivity;
             discriminate E
         end.
Qed.

(** ** The feed *)

Lemma join_posts_users_elem t r :
  r ∈ join_posts_users t <->
  exists p u, p ∈ posts t /\ u ∈ users t /\ p_user_id p = u_id u /\
              r = feed_of p u.
Proof.
  unfold join_posts_users. rewrite list_elem_of_In, in_flat_map. split.
  - intros (p & Hp & Hr). apply in_map_iff in Hr as (u & <- & Hu).
    apply list_elem_of_In, list_elem_of_filter in Hu as [Hid Hu].
    exists p, u. rewrite list_elem_of_In. auto.
  - intros (p & u & Hp & Hu & Hid & ->). exists p. split.
    + apply list_elem_of_In, Hp.
    + apply in_map, list_elem_of_In, list_elem_of_filter. auto.
Qed.

Lemma insert_desc_perm r l : insert_desc r l ≡ₚ r :: l.
Proof.
  induction l as [|x l IH]; simpl; [reflexivity|].
  case_bool_decide; [reflexivity|].
  rewrite IH. apply Permutation_swap.
Qed.

Lemma sort_desc_perm l : sort_desc l ≡ₚ l.
Proof.
  induction l as [|x l IH]; simpl; [reflexivity|].
  rewrite insert_desc_perm, IH. reflexivity.
Qed.

Lemma insert_desc_sorted r l :
  StronglySorted created_desc l ->
  StronglySorted created_desc (insert_desc r l).
Proof.
  induction l as [|x l IH]; intros Hs; simpl.
  - repeat constructor.
  - apply StronglySorted_inv in Hs as [Hl Hx]. case_bool_decide as Hle.
    + constructor; [constructor; assumption|].
      constructor; [exact Hle|].
      eapply Forall_impl; [exact Hx|].
      intros y Hy. unfold created_desc in *. lia.
    + constructor; [apply IH, Hl|].
      rewrite insert_desc_perm. constructor; [|exact Hx].
      unfold created_desc. lia.
Qed.

Lemma sort_desc_sorted l : StronglySorted created_desc (sort_desc l).
Proof.
  induction l as [|x l IH]; simpl; [constructor|].
  apply insert_desc_sorted, IH.
Qed.

Lemma list_feed_perm t : list_feed t ≡ₚ join_posts_users t.
Proof. apply sort_desc_perm. Qed.

Lemma list_feed_elem t r :
  r ∈ list_feed t <->
  exists p u, p ∈ posts t /\ u ∈ users t /\ p_user_id p = u_id u /\
              r = feed_of p u.
Proof. rewrite list_feed_perm. apply join_posts_users_elem. Qed.

Lemma list_feed_sorted t : StronglySorted created_desc (list_feed t).
Proof. apply sort_desc_sorted. Qed.

(** With unique user ids, the rows of [us] whose id is [k] are the single
    row [u] that has it. *)
Lemma filter_by_id (us : list user_row) u :
  NoDup (map u_id us) -> u ∈ us ->
  filter (fun x => u_id u = u_id x) us = [u].
Proof.
  induction us as [|x us IH]; intros Hnd Hu; [inversion Hu|].
  simpl in Hnd. apply NoDup_cons in Hnd as [Hx Hnd].
  rewrite filter_cons. destruct (decide (u_id u = u_id x)) as [E|E].
  - assert (u = x) as ->.
    { apply list_elem_of_In in Hu. destruct Hu as [Hu|Hu]; [congruence|].
      exfalso. apply Hx. rewrite <- E. apply list_elem_of_In, in_map, Hu. }
    f_equal. destruct (filter _ us) as [|y l] eqn:Ef; [reflexivity|].
    assert (Hy : y ∈ filter (fun x0 => u_id x = u_id x0) us)
      by (rewrite Ef; left).
    apply list_elem_of_filter in Hy as [Hy1 Hy2].
    exfalso. apply Hx. rewrite Hy1. apply list_elem_of_In, in_map.
    apply list_elem_of_In, Hy2.
  - apply IH; [exact Hnd|].
    apply list_elem_of_In in Hu. destruct Hu as [Hu|Hu]; [congruence|].
    apply list_elem_of_In, Hu.
Qed.

(** Under the primary key of [users] and with every author present, the
    join has one row per post, in the order of the posts. *)
Lemma join_posts_users_ids t :
  NoDup (map u_id (users t)) -> posts_have_authors t ->
  map f_id (join_posts_users t) = map p_id (posts t).
Proof.
  intros Hnd Hfk. unfold join_posts_users, posts_have_authors in *.
  induction (posts t) as [|p ps IH]; [reflexivity|].
  apply Forall_cons in Hfk as [(u & Hu & Hid) Hfk]. simpl.
  rewrite map_app, IH by exact Hfk.
  rewrite <- Hid, (filter_by_id _ u Hnd Hu). reflexivity.
Qed.

Lemma list_feed_ids t :
  NoDup (map u_id (users t)) -> posts_have_authors t ->
  map f_id (list_feed t) ≡ₚ map p_id (posts t).
Proof.
  intros Hnd Hfk. rewrite <- (join_posts_users_ids t Hnd Hfk).
  apply Permutation_map, list_feed_perm.
Qed.

(** ** Posting *)

Lemma upload_cases req :
  (exists file, upload_accepted req file) \/ upload_dropped req.
Proof.
  unfold upload_accepted, upload_dropped.
  destruct (files req !! "media") as [file|]; [|right; exact I].
  destruct (allowed_file (filename file)) eqn:E;
    [left; eauto | right; reflexivity].
Qed.

Lemma created_post_insert w w' t uid content media ts :
  database w = Some t ->
  database w' = Some (insert_post t uid content media ts) ->
  created_post w w'
    {| p_id := next_rowid (posts_seq t) (map p_id (posts t));
       p_user_id := uid; p_content := content; p_media_filename := media;
       p_created_at := ts |}.
Proof. intros Hd Hd'. exists t, (insert_post t uid content media ts). auto. Qed.

Section Posting.

Context (wz : werkzeug).

Lemma upload_storable_path req e file :
  upload_storable wz req e -> upload_accepted req file ->
  storage_accepts e
    (path_join UPLOAD_FOLDER
       (strftime (now e) +:+ "_" +:+ secure_filename wz (filename file)))
  = true.
Proof.
  intros Hst [Hf Ha]. rewrite path_join_upload. apply Hst; assumption.
Qed.

(** An authenticated submission with a content field creates a post
    whenever its upload, if accepted, can be stored; what varies is the
    media the post refers to. *)
Lemma create_post_run_any req e w t uid content :
  s_user_id (session w) = Some uid -> method req = POST ->
  form req !! "content" = Some content -> database w = Some t ->
  upload_storable wz req e ->
  exists media w',
    create_post wz req e w = (Returns (Redirect "/"), w') /\
    database w' =
      Some (insert_post t uid content media (current_timestamp e)) /\
    s_user_id (session w') = Some uid /\
    open_conns w' = open_conns w.
Proof.
  intros Hs Hm Hc Hd Hst. destruct (upload_cases req) as [[file Ha]|Hdrop].
  - eexists _, _. split;
      [apply (create_post_run_accept wz req e w t uid content file);
       [assumption .. | apply (upload_storable_path req); assumption]|].
    simpl. auto.
  - eexists _, _. split;
      [apply (create_post_run_drop wz req e w t uid content); assumption|].
    simpl. auto.
Qed.

(** The same for a submission that was answered, whatever the filesystem
    would have said to other uploads. *)
Lemma create_post_run_returned req e w t uid content resp :
  s_user_id (session w) = Some uid -> method req = POST ->
  form req !! "content" = Some content -> database w = Some t ->
  fst (create_post wz req e w) = Returns resp ->
  exists media w',
    create_post wz req e w = (Returns (Redirect "/"), w') /\
    database w' =
      Some (insert_post t uid content media (current_timestamp e)) /\
    s_user_id (session w') = Some uid /\
    open_conns w' = open_conns w.
Proof.
  intros Hs Hm Hc Hd Hret.
  destruct (upload_cases req) as [[file Ha]|Hdrop].
  - destruct (storage_accepts e
                (path_join UPLOAD_FOLDER
                   (strftime (now e) +:+ "_" +:+
                    secure_filename wz (filename file)))) eqn:Hst.
    + eexists _, _. split;
        [apply (create_post_run_accept wz req e w t uid content file);
         assumption|].
      simpl. auto.
    + rewrite (create_post_run_refused wz req e w uid content file)
        in Hret by assumption.
      discriminate Hret.
  - eexists _, _. split;
      [apply (create_post_run_drop wz req e w t uid content); assumption|].
    simpl. auto.
Qed.

End Posting.

(** * The claims *)

(** C1.  A registration whose username or email is already in [users]
    fails with DuplicateUser: the form is rendered again with the flash
    message, no [INSERT] is executed and the database is as before. *)
Theorem register_duplicate_rejected wz req e w t username email password :
  method req = POST ->
  form req !! "username" = Some username ->
  form req !! "email" = Some email ->
  form req !! "password" = Some password ->
  database w = Some t ->
  (exists u, u ∈ users t /\ (u_username u = username \/ u_email u = email)) ->
  duplicate_user w (register wz req e w) /\
  database (snd (register wz req e w)) = Some t /\
  log (snd (register wz req e w))
  = (log w ++ [EvConnect; EvExecute SelectDuplicate; EvClose])%list.
Proof.
  intros Hm Hu He Hp Hd Hex.
  rewrite (register_run_duplicate wz req e w t username email password)
    by assumption.
  unfold duplicate_user. simpl. auto.
Qed.

Lemma register_duplicate_rejected_witness :
  duplicate_user Sample.w_anon
    (register Sample.wz Sample.register_ann_again Sample.e0 Sample.w_anon) /\
  database (snd (register Sample.wz Sample.register_ann_again Sample.e0
                   Sample.w_anon)) = Some Sample.t0 /\
  log (snd (register Sample.wz Sample.register_ann_again Sample.e0
              Sample.w_anon))
  = [EvConnect; EvExecute SelectDuplicate; EvClose].
Proof.
  apply (register_duplicate_rejected Sample.wz Sample.register_ann_again
           Sample.e0 Sample.w_anon Sample.t0 "ann" "other@example.org" "x");
    try reflexivity.
  exists Sample.ann. split; [left | left; reflexivity].
Defined.

(** C2, as stated, fails: a name with an allowed extension that the
    filesystem refuses (here one of 304 characters) makes [file.save]
    raise at line 140; no file is written and no post is created. *)
Lemma allowed_upload_refused :
  let req := Sample.post_with "look" [("media", Sample.long_png)] in
  let r := create_post Sample.wz req Sample.e0 Sample.w_ann in
  s_user_id (session Sample.w_ann) = Some 1 /\
  has_extension (filename Sample.long_png)
    (String.concat "" (replicate 300 "a")) "png" /\
  PyStr.lower "png" ∈ ALLOWED_EXTENSIONS /\
  fst r = Raises (OSError "cannot open the file for writing") /\
  uploads (snd r) = ∅ /\
  database (snd r) = database Sample.w_ann.
Proof.
  intros req r.
  split; [reflexivity|]. split; [split; vm_compute; reflexivity|].
  split; [apply (bool_decide_unpack _); vm_compute; exact I|].
  vm_compute. repeat split.
Qed.

(** C2, amended.  An authenticated submission with a media upload: when
    the text after the last dot of the declared name is, lowered, in the
    allow-list and the filesystem takes the file, the upload is written to
    the upload folder and the post that is created refers to it; when the
    name has no dot or another extension, the post is still created,
    without media, nothing is written and no error is raised. *)
Theorem create_post_media_allow_list wz req e w t uid content file :
  s_user_id (session w) = Some uid ->
  method req = POST ->
  form req !! "content" = Some content ->
  files req !! "media" = Some file ->
  database w = Some t ->
  let r := create_post wz req e w in
  let name :=
    strftime (now e) +:+ "_" +:+ secure_filename wz (filename file) in
  (forall base ext,
      has_extension (filename file) base ext ->
      PyStr.lower ext ∈ ALLOWED_EXTENSIONS ->
      storage_accepts e ("static/uploads/" +:+ name) = true ->
      fst r = Returns (Redirect "/") /\
      uploads (snd r) !! ("static/uploads/" +:+ name) = Some (stream file) /\
      exists p, created_post w (snd r) p /\
                p_media_filename p = Some name /\ p_content p = content) /\
  (PyStr.contains "." (filename file) = false \/
   (exists base ext, has_extension (filename file) base ext /\
                     PyStr.lower ext ∉ ALLOWED_EXTENSIONS) ->
   fst r = Returns (Redirect "/") /\
   uploads (snd r) = uploads w /\
   exists p, created_post w (snd r) p /\
             p_media_filename p = None /\ p_content p = content).
Proof.
  intros Hs Hm Hc Hf Hd r name. split.
  - intros base ext Hext Hin Hst.
    assert (Ha : allowed_file (filename file) = true).
    { rewrite (allowed_file_extension _ base ext Hext).
      apply bool_decide_eq_true_2, Hin. }
    subst r name. rewrite <- path_join_upload in Hst.
    rewrite (create_post_run_accept wz req e w t uid content file)
      by (unfold upload_accepted; auto).
    cbv zeta. rewrite path_join_upload. cbn [fst snd uploads database].
    split; [reflexivity|]. split; [apply lookup_insert_eq|].
    eexists. split; [eapply created_post_insert; [exact Hd | reflexivity]|].
    simpl. auto.
  - intros Hno.
    assert (Ha : allowed_file (filename file) = false).
    { destruct Hno as [Hno | (base & ext & Hext & Hout)].
      - apply allowed_file_no_dot, Hno.
      - rewrite (allowed_file_extension _ base ext Hext).
        apply bool_decide_eq_false_2, Hout. }
    subst r.
    rewrite (create_post_run_drop wz req e w t uid content)
      by (auto; unfold upload_dropped; rewrite Hf; exact Ha).
    simpl. split; [reflexivity|]. split; [reflexivity|].
    eexists. split; [eapply created_post_insert; [exact Hd | reflexivity]|].
    simpl. auto.
Qed.

Lemma create_post_media_allow_list_witness :
  let req := Sample.post_with "look" [("media", Sample.cat_jpg)] in
  let r := create_post Sample.wz req Sample.e0 Sample.w_ann in
  fst r = Returns (Redirect "/") /\
  uploads (snd r) !! "static/uploads/20240307_090500_cat.JPG" = Some "JFIF".
Proof.
  intros req r.
  destruct (create_post_media_allow_list Sample.wz req Sample.e0 Sample.w_ann
              Sample.t0 1 "look" Sample.cat_jpg
              eq_refl eq_refl eq_refl eq_refl eq_refl) as (Hin & _).
  destruct (Hin "cat" "JPG") as (Hr & Hup & _).
  - split; reflexivity.
  - vm_compute. reflexivity.
  - reflexivity.
  - split; [exact Hr | exact Hup].
Defined.

(** C3.  For an authenticated request over any tables, [index] renders the
    feed query: its rows are exactly the posts joined with the username of
    the user whose id they carry, in non-increasing order of [created_at];
    under the primary key of [users] and with every author present each
    post occurs exactly once; and the post created by a submission of the
    authenticated user that was answered is in the feed of the next
    request under that user's name. *)
Theorem index_lists_feed wz req e w t uid :
  s_user_id (session w) = Some uid ->
  database w = Some t ->
  exists rows,
    fst (index req e w) = Returns (Render "index.html" (Some rows)) /\
    (forall r, r ∈ rows <->
       exists p u, p ∈ posts t /\ u ∈ users t /\ p_user_id p = u_id u /\
                   r = feed_of p u) /\
    StronglySorted created_desc rows /\
    (NoDup (map u_id (users t)) -> posts_have_authors t ->
     map f_id rows ≡ₚ map p_id (posts t)) /\
    (forall creq ce content u resp,
       method creq = POST -> form creq !! "content" = Some content ->
       u ∈ users t -> u_id u = uid ->
       fst (create_post wz creq ce w) = Returns resp ->
       let w' := snd (create_post wz creq ce w) in
       exists rows' r,
         fst (index req e w') = Returns (Render "index.html" (Some rows')) /\
         r ∈ rows' /\ f_content r = content /\
         f_username r = u_username u /\
         f_created_at r = current_timestamp ce).
Proof.
  intros Hs Hd. exists (list_feed t).
  rewrite (index_run req e w t uid Hs Hd).
  split; [reflexivity|]. split; [apply list_feed_elem|].
  split; [apply list_feed_sorted|]. split; [apply list_feed_ids|].
  intros creq ce content u resp Hm Hc Hu Hid Hret.
  destruct (create_post_run_returned wz creq ce w t uid content resp
              Hs Hm Hc Hd Hret)
    as (media & w1 & Hr & Hd1 & Hs1 & _).
  cbv zeta. rewrite Hr. cbn [snd].
  rewrite (index_run req e w1 _ uid Hs1 Hd1).
  eexists _, (feed_of _ u). split; [reflexivity|]. split.
  - apply list_feed_elem. eexists _, u. split; [|split; [exact Hu|split]].
    + cbn [posts insert_post]. apply elem_of_app. right. left.
    + simpl. congruence.
    + reflexivity.
  - simpl. auto.
Qed.

Lemma index_lists_feed_witness :
  exists rows,
    fst (index (Sample.mk_request GET [] []) Sample.e0 Sample.w_ann)
    = Returns (Render "index.html" (Some rows)) /\
    StronglySorted created_desc rows.
Proof.
  destruct (index_lists_feed Sample.wz (Sample.mk_request GET [] [])
              Sample.e0 Sample.w_ann Sample.t0 1 eq_refl eq_refl)
    as (rows & Hr & _ & Hsorted & _).
  exists rows. split; [exact Hr | exact Hsorted].
Defined.

Example index_sample_feed :
  fst (index (Sample.mk_request GET [] []) Sample.e0 Sample.w_ann)
  = Returns (Render "index.html" (Some
      [ {| f_id := 2; f_content := "second"; f_media_filename := None;
           f_created_at := 99; f_username := "ann" |};
        {| f_id := 1; f_content := "first"; f_media_filename := None;
           f_created_at := 96; f_username := "bob" |} ])).
Proof. vm_compute. reflexivity. Qed.

(** C4.  Without [user_id] in the session, [/] and [/create_post] answer
    with a redirect to the login route and leave the whole world, the
    posts table included, as it was. *)
Theorem session_gate_redirects wz r req e w :
  r = Index \/ r = CreatePost ->
  s_user_id (session w) = None ->
  handler wz r req e w = (Returns (Redirect (url_for "login")), w).
Proof.
  intros [-> | ->] Hs; simpl.
  - apply index_run_anonymous, Hs.
  - apply create_post_run_anonymous, Hs.
Qed.

Lemma session_gate_redirects_witness :
  handler Sample.wz CreatePost (Sample.post_with "hello" []) Sample.e0
    Sample.w_anon
  = (Returns (Redirect "/login"), Sample.w_anon).
Proof.
  apply (session_gate_redirects Sample.wz CreatePost
           (Sample.post_with "hello" []) Sample.e0 Sample.w_anon).
  - right. reflexivity.
  - reflexivity.
Defined.

(** C5.  A login submission fails with InvalidCredentials exactly when no
    user row has the submitted username or the password does not verify
    against the stored hash of the user that has it; when it verifies, the
    session is bound to that user's id and to the submitted username and
    the answer is a redirect to the feed. *)
Theorem login_invalid_credentials_iff wz req e w t username password :
  method req = POST ->
  form req !! "username" = Some username ->
  form req !! "password" = Some password ->
  database w = Some t ->
  NoDup (map u_username (users t)) ->
  let r := login wz req e w in
  (invalid_credentials w r <->
   (¬ (exists u, u ∈ users t /\ u_username u = username) \/
    exists u, u ∈ users t /\ u_username u = username /\
              check_password_hash wz (u_password_hash u) password = false))
  /\
  (forall u, u ∈ users t -> u_username u = username ->
     check_password_hash wz (u_password_hash u) password = true ->
     fst r = Returns (Redirect (url_for "index")) /\
     s_user_id (session (snd r)) = Some (u_id u) /\
     s_username (session (snd r)) = Some username).
Proof.
  intros Hm Hu Hp Hd Hnd r. subst r.
  rewrite (login_run wz req e w t username password Hm Hu Hp Hd).
  cbv zeta. unfold invalid_credentials. split; [split|].
  - destruct (fetchone (select_by_username t username)) as [[uid h]|] eqn:Ef.
    + apply select_login_sound in Ef as (u & Hin & Hn & Hid & Hh).
      destruct (check_password_hash wz h password) eqn:Ec.
      * simpl. intros [[=] _].
      * intros _. right. exists u. rewrite Hh. auto.
    + intros _. left. intros (u & Hin & Hn).
      rewrite select_login_none in Ef. exact (Ef u Hin Hn).
  - intros [Hno | (u & Hin & Hn & Hc)].
    + assert (Ef : fetchone (select_by_username t username) = None).
      { apply select_login_none. intros u Hin Hn. apply Hno. eauto. }
      rewrite Ef. simpl. auto.
    + subst username. rewrite (select_login_unique t u Hnd Hin), Hc.
      simpl. auto.
  - intros u Hin Hn Hc. subst username.
    rewrite (select_login_unique t u Hnd Hin), Hc. simpl. auto.
Qed.

Lemma login_invalid_credentials_iff_witness :
  invalid_credentials Sample.w_anon
    (login Sample.wz Sample.login_bob_wrong Sample.e0 Sample.w_anon).
Proof.
  apply (login_invalid_credentials_iff Sample.wz Sample.login_bob_wrong
           Sample.e0 Sample.w_anon Sample.t0 "bob" "guess");
    try reflexivity.
  - apply (bool_decide_unpack _). vm_compute. exact I.
  - right. exists Sample.bob. split; [right; left|]. split; reflexivity.
Defined.

(** C6, as stated, fails: on a database file without the tables the
    statement of [register] raises after the connection was opened, and
    the handler ends with that connection still open. *)
Lemma connection_left_open_on_error :
  let r := register Sample.wz Sample.register_ann_again Sample.e0
             Sample.w_no_tables in
  fst r = Raises (OperationalError "no such table") /\
  log (snd r) = [EvConnect] /\
  open_conns (snd r) = 1%nat /\
  open_conns (snd r) <> open_conns Sample.w_no_tables.
Proof. vm_compute. repeat split; try reflexivity. discriminate. Qed.

(** C6, amended.  Whenever a handler returns a response, every connection
    it opened has been closed; a handler raises only for a missing form
    field or an upload the filesystem refuses, before any connection is
    opened, or for a failing database statement, and then the connection
    it opened stays open. *)
Theorem connection_closed_on_return wz r req e w out w' :
  handler wz r req e w = (out, w') ->
  match out with
  | Returns _ => open_conns w' = open_conns w
  | Raises (BadRequestKeyError _) => open_conns w' = open_conns w
  | Raises (OperationalError _) => open_conns w' = S (open_conns w)
  | Raises (KeyError _) => False
  | Raises (IntegrityError _) => False
  | Raises (OSError _) => open_conns w' = open_conns w
  end.
Proof. apply handler_connections. Qed.

Lemma connection_closed_on_return_witness :
  open_conns (snd (handler Sample.wz Login Sample.login_bob Sample.e0
                     Sample.w_ann))
  = open_conns Sample.w_ann.
Proof.
  exact (connection_closed_on_return Sample.wz Login Sample.login_bob
           Sample.e0 Sample.w_ann
           (fst (handler Sample.wz Login Sample.login_bob Sample.e0
                   Sample.w_ann))
           (snd (handler Sample.wz Login Sample.login_bob Sample.e0
                   Sample.w_ann))
           eq_refl).
Defined.

(** C7.  With [SECRET_KEY] set in the environment, the application still
    signs with the literal of line 9 of [app.py]; [config.Config], which
    would take the value from the environment, is never loaded. *)
Theorem secret_key_ignores_environment :
  let environment : environ := {[ "SECRET_KEY" := "s3cret" ]} in
  secret_key (app environment) = default_secret_key /\
  secret_key (app environment) <> "s3cret" /\
  Config.SECRET_KEY environment = "s3cret".
Proof. vm_compute. repeat split; try reflexivity. discriminate. Qed.



(** C9, as stated, fails: an authenticated submission, here with empty
    content, that carries an accepted upload the filesystem refuses
    creates no post; [file.save] raises before the [INSERT]. *)
Lemma refused_upload_creates_no_post :
  let req := Sample.post_with "" [("media", Sample.long_png)] in
  let r := create_post Sample.wz req Sample.e0 Sample.w_ann in
  s_user_id (session Sample.w_ann) = Some 1 /\
  form req !! "content" = Some "" /\
  fst r = Raises (OSError "cannot open the file for writing") /\
  database (snd r) = Some Sample.t0 /\
  ~ exists p, created_post Sample.w_ann (snd r) p.
Proof.
  intros req r.
  assert (Hr : r = (Raises (OSError "cannot open the file for writing"),
                    Sample.w_ann)) by (vm_compute; reflexivity).
  rewrite Hr. cbn [fst snd].
  split; [reflexivity|]. split; [reflexivity|]. split; [reflexivity|].
  split; [reflexivity|].
  intros (p & t & t' & Hd & Hd' & Hp & _).
  rewrite Hd in Hd'. injection Hd' as <-.
  apply (f_equal (@length post_row)) in Hp. rewrite length_app in Hp.
  simpl in Hp. lia.
Qed.

(** C9, amended.  An authenticated submission whose upload, if any is
    accepted, can be stored creates the post with the submitted content
    whatever it is, the empty string included: the handler has no check on
    the content. *)
Theorem create_post_accepts_any_content wz req e w t uid content :
  s_user_id (session w) = Some uid ->
  method req = POST ->
  form req !! "content" = Some content ->
  database w = Some t ->
  upload_storable wz req e ->
  let r := create_post wz req e w in
  fst r = Returns (Redirect (url_for "index")) /\
  exists p, created_post w (snd r) p /\
            p_content p = content /\ p_user_id p = uid.
Proof.
  intros Hs Hm Hc Hd Hst r. subst r.
  destruct (create_post_run_any wz req e w t uid content Hs Hm Hc Hd Hst)
    as (media & w' & Hr & Hd' & _).
  rewrite Hr. split; [reflexivity|].
  eexists. split; [eapply created_post_insert; [exact Hd | exact Hd']|].
  simpl. auto.
Qed.

Lemma create_post_accepts_any_content_witness :
  let r := create_post Sample.wz (Sample.post_with "" []) Sample.e0
             Sample.w_ann in
  fst r = Returns (Redirect "/") /\
  exists p, created_post Sample.w_ann (snd r) p /\
            p_content p = "" /\ p_user_id p = 1.
Proof.
  apply (create_post_accepts_any_content Sample.wz (Sample.post_with "" [])
           Sample.e0 Sample.w_ann Sample.t0 1 ""); try reflexivity.
  intros file Hfile. discriminate Hfile.
Defined.

(** C10.  A successful login overwrites [user_id] and [username] in the
    session whatever they were, also when another user was logged in; the
    rest of the session is kept, with the success message queued. *)
Theorem login_rebinds_session wz req e w t username password u :
  method req = POST ->
  form req !! "username" = Some username ->
  form req !! "password" = Some password ->
  database w = Some t ->
  NoDup (map u_username (users t)) ->
  u ∈ users t -> u_username u = username ->
  check_password_hash wz (u_password_hash u) password = true ->
  let r := login wz req e w in
  fst r = Returns (Redirect (url_for "index")) /\
  session (snd r)
  = {| s_user_id := Some (u_id u); s_username := Some username;
       s_flashes := s_flashes (session w) ++ ["Login successful!"];
       s_other := s_other (session w) |}.
Proof.
  intros Hm Hu Hp Hd Hnd Hin Hn Hc r. subst r username.
  rewrite (login_run wz req e w t _ password Hm Hu Hp Hd).
  cbv zeta. rewrite (select_login_unique t u Hnd Hin), Hc.
  split; reflexivity.
Qed.

Lemma login_rebinds_session_witness :
  let r := login Sample.wz Sample.login_bob Sample.e0 Sample.w_ann in
  s_user_id (session Sample.w_ann) = Some 1 /\
  fst r = Returns (Redirect "/") /\
  session (snd r)
  = {| s_user_id := Some 2; s_username := Some "bob";
       s_flashes := ["Login successful!"];
       s_other := {[ "theme" := "dark" ]} |}.
Proof.
  split; [reflexivity|].
  apply (login_rebinds_session Sample.wz Sample.login_bob Sample.e0
           Sample.w_ann Sample.t0 "bob" "hunter2" Sample.bob);
    try reflexivity.
  - apply (bool_decide_unpack _). vm_compute. exact I.
  - right. left.
Defined.

(** * Further properties of the code *)

(** ** The effect of one request *)

Ltac pick_effect :=
  first
    [ solve [eapply effect_quiet; simpl; eauto]
    | solve [eapply effect_logout; simpl; eauto]
    | solve [eapply effect_login; simpl; eauto]
    | solve [eapply effect_register; simpl; eauto]
    | solve [eapply effect_post; simpl; eauto]
    | solve [eapply effect_post_media; simpl;
             rewrite <- ?path_join_upload; eauto] ].

Lemma handler_effect wz r req e w t out w' :
  database w = Some t ->
  handler wz r req e w = (out, w') ->
  effect t w w'.
Proof.
  intros Hd H. destruct r; simpl in H.
  - unfold index in H. run_monad.
    split_paths H; injection H as <- <-; try congruence;
      rewrite ?Hd in *; simplify_eq; pick_effect.
  - unfold register in H. run_monad.
    split_paths H; injection H as <- <-; try congruence;
      rewrite ?Hd in *; simplify_eq; pick_effect.
  - unfold login in H. run_monad.
    split_paths H; injection H as <- <-; try congruence;
      rewrite ?Hd in *; simplify_eq; pick_effect.
  - unfold logout in H. run_monad. injection H as <- <-. pick_effect.
  - unfold create_post, handle_upload in H. run_monad.
    split_paths H; try injection H as <- <-; try congruence;
      rewrite ?Hd in *; simplify_eq; try pick_effect.
Qed.

(** Over existing tables a handler either answers, or rejects a form that
    lacks a field, or fails to store the upload; in the last two cases it
    has done nothing yet. *)
Lemma handler_answers wz r req e w t out w' :
  database w = Some t ->
  handler wz r req e w = (out, w') ->
  (exists resp, out = Returns resp) \/
  (exists key, out = Raises (BadRequestKeyError key) /\ w' = w) \/
  (exists msg, out = Raises (OSError msg) /\ w' = w).
Proof.
  intros Hd H.
  pose proof (handler_connections wz r req e w out w' H) as Hc.
  destruct out as [resp|[key|key|msg|msg|msg]]; try contradiction;
    [eauto| | |].
  - right. left. exists key. split; [reflexivity|].
    destruct r; simpl in H.
    + unfold index in H. run_monad. split_paths H; simplify_eq.
    + unfold register in H. run_monad. split_paths H; simplify_eq;
        first [reflexivity | simpl in Hc; lia].
    + unfold login in H. run_monad. split_paths H; simplify_eq; reflexivity.
    + unfold logout in H. run_monad. simplify_eq.
    + unfold create_post, handle_upload in H. run_monad.
      split_paths H; simplify_eq; reflexivity.
  - exfalso. destruct r; simpl in H.
    + unfold index in H. run_monad. split_paths H; simplify_eq.
    + unfold register in H. run_monad. split_paths H; simplify_eq.
      match goal with
      | E : bool_decide _ = false, E' : insert_user _ _ _ ?h ?ts = inl _ |- _ =>
          apply bool_decide_eq_false in E;
          destruct (insert_user_after_check _ _ _ h ts E) as [t' Ht'];
          congruence
      end.
    + unfold login in H. run_monad. split_paths H; simplify_eq.
    + unfold logout in H. run_monad. simplify_eq.
    + unfold create_post, handle_upload in H. run_monad.
      split_paths H; simplify_eq.
  - right. right. exists msg. split; [reflexivity|].
    destruct r; simpl in H.
    + unfold index in H. run_monad. split_paths H; simplify_eq.
    + unfold register in H. run_monad. split_paths H; simplify_eq.
      simpl in Hc; lia.
    + unfold login in H. run_monad. split_paths H; simplify_eq.
    + unfold logout in H. run_monad. simplify_eq.
    + unfold create_post, handle_upload in H. run_monad.
      split_paths H; simplify_eq; reflexivity.
Qed.

(** ** Rows and keys *)

Lemma next_rowid_above seq ids i : i ∈ ids -> i < next_rowid seq ids.
Proof.
  unfold next_rowid. induction ids as [|j ids IH]; intros Hi.
  - inversion Hi.
  - simpl. apply list_elem_of_In in Hi. destruct Hi as [->|Hi]; [lia|].
    apply list_elem_of_In, IH in Hi. lia.
Qed.

Lemma next_rowid_fresh seq ids : next_rowid seq ids ∉ ids.
Proof. intros H. apply (next_rowid_above seq) in H. lia. Qed.

Lemma NoDup_map_snoc {A B} (f : A -> B) (l : list A) (x : A) :
  NoDup (map f l) -> (forall y, y ∈ l -> f y <> f x) ->
  NoDup (map f (l ++ [x])).
Proof.
  intros Hnd Hx. rewrite map_app. apply NoDup_app. split; [exact Hnd|].
  split; [|apply NoDup_singleton].
  intros b Hb Hb'. apply list_elem_of_In, in_map_iff in Hb as (y & <- & Hy).
  apply list_elem_of_In in Hy. cbn in Hb'.
  apply list_elem_of_singleton in Hb'. exact (Hx y Hy Hb').
Qed.

(** A successful [INSERT INTO users] appends one row, whose name and email
    no earlier row has, under a fresh id. *)
Lemma insert_user_inr t username email h ts t' :
  insert_user t username email h ts = inr t' ->
  (forall u, u ∈ users t -> u_username u <> username /\ u_email u <> email) /\
  users t' = (users t ++
              [{| u_id := next_rowid (users_seq t) (map u_id (users t));
                  u_username := username; u_email := email;
                  u_password_hash := h; u_created_at := ts |}])%list /\
  posts t' = posts t.
Proof.
  unfold insert_user. intros H.
  destruct (bool_decide (Exists _ (users t))) eqn:E1; [discriminate|].
  destruct (bool_decide (Exists (fun u => u_email u = email) (users t)))
    eqn:E2; [discriminate|].
  injection H as <-. simpl. split; [|auto].
  apply bool_decide_eq_false in E1, E2. rewrite Exists_exists in E1, E2.
  intros u Hu. split; intros Hn; [apply E1 | apply E2]; eauto.
Qed.

Lemma insert_user_unique t username email h ts t' :
  users_unique t -> insert_user t username email h ts = inr t' ->
  users_unique t'.
Proof.
  intros (Hid & Hn & He) H.
  apply insert_user_inr in H as (Hfresh & Hu & _).
  unfold users_unique. rewrite Hu.
  repeat split; apply NoDup_map_snoc; try assumption; intros y Hy; simpl.
  - intros E. apply (next_rowid_fresh (users_seq t) (map u_id (users t))).
    rewrite <- E. apply list_elem_of_In, in_map, list_elem_of_In, Hy.
  - apply Hfresh, Hy.
  - apply Hfresh, Hy.
Qed.

Lemma insert_post_ids t uid content media ts :
  NoDup (map p_id (posts t)) ->
  NoDup (map p_id (posts (insert_post t uid content media ts))).
Proof.
  intros Hnd. cbn [insert_post posts]. apply NoDup_map_snoc; [exact Hnd|].
  intros y Hy. simpl. intros E.
  apply (next_rowid_fresh (posts_seq t) (map p_id (posts t))).
  rewrite <- E. apply list_elem_of_In, in_map, list_elem_of_In, Hy.
Qed.

Lemma session_valid_more t t' s :
  (forall u, u ∈ users t -> u ∈ users t') ->
  session_valid t s -> session_valid t' s.
Proof.
  intros Hsub Hv uid Hs. destruct (Hv uid Hs) as (u & Hu & H).
  exists u. split; [apply Hsub, Hu | exact H].
Qed.

Lemma session_valid_same_identity t s s' :
  s_user_id s' = s_user_id s -> s_username s' = s_username s ->
  session_valid t s -> session_valid t s'.
Proof. intros Hi Hn Hv uid Hs. rewrite Hn. apply Hv. congruence. Qed.

Lemma posts_have_authors_more t t' :
  (forall u, u ∈ users t -> u ∈ users t') -> posts t' = posts t ->
  posts_have_authors t -> posts_have_authors t'.
Proof.
  unfold posts_have_authors. intros Hsub -> H.
  eapply Forall_impl; [exact H|]. intros p (u & Hu & Hid). eauto.
Qed.

Lemma posts_have_authors_insert t uid content media ts :
  (exists u, u ∈ users t /\ u_id u = uid) ->
  posts_have_authors t ->
  posts_have_authors (insert_post t uid content media ts).
Proof.
  unfold posts_have_authors. intros Hu Hfk. cbn [insert_post posts users].
  apply Forall_app. split; [exact Hfk|]. apply Forall_singleton. exact Hu.
Qed.

Lemma media_stored_insert_none t files uid content ts :
  media_stored t files ->
  media_stored (insert_post t uid content None ts) files.
Proof.
  unfold media_stored. intros H. cbn [insert_post posts].
  apply Forall_app. split; [exact H|]. apply Forall_singleton.
  simpl. discriminate.
Qed.

Lemma media_stored_insert_some t files uid content name data ts :
  media_stored t files ->
  media_stored (insert_post t uid content (Some name) ts)
    (<["static/uploads/" +:+ name := data]> files).
Proof.
  unfold media_stored. intros H. cbn [insert_post posts].
  apply Forall_app. split.
  - eapply Forall_impl; [exact H|]. intros p Hp n Hn.
    rewrite lookup_insert_is_Some. destruct (Hp n Hn); eauto.
    destruct (decide ("static/uploads/" +:+ name = "static/uploads/" +:+ n));
      [left; assumption | right; split; eauto].
  - apply Forall_singleton. simpl. intros n [= <-].
    rewrite lookup_insert_eq. eauto.
Qed.

(** ** Invariants *)

Lemma world_ok_step wz r req e w cookies c out w' :
  world_ok w cookies -> c ∈ cookies ->
  handler wz r req e (with_session c w) = (out, w') ->
  world_ok w' (session w' :: cookies).
Proof.
  intros (t & Hd & Huniq & Hpid & Hfk & Hmedia & Hcs & Hopen) Hc H.
  assert (Hd0 : database (with_session c w) = Some t) by exact Hd.
  assert (Hcv : session_valid t c).
  { rewrite Forall_forall in Hcs. apply Hcs, Hc. }
  assert (Hopen' : open_conns w' = 0%nat).
  { pose proof (handler_connections wz r req e _ out w' H) as Hconn.
    destruct (handler_answers wz r req e _ t out w' Hd0 H)
      as [[resp ->] | [(key & -> & ->) | (msg & -> & ->)]];
      simpl in Hconn; simpl; lia. }
  pose proof (handler_effect wz r req e _ t out w' Hd0 H) as Heff.
  destruct Heff as [Hd' Hup Hsi Hsn Hso | Hd' Hup Hs
                   | uid h username Hd' Hup Hf Hsi Hsn Hso
                   | t' username email h ts Hins Hd' Hup Hsi Hsn Hso
                   | uid content ts Hsu Hd' Hup Hsi Hsn Hso
                   | uid content ts dt rest data Hsu Hd' Hup Hsi Hsn Hso];
    simpl in *.
  - exists t. rewrite Hup. split; [exact Hd'|]. split; [exact Huniq|].
    split; [exact Hpid|]. split; [exact Hfk|]. split; [exact Hmedia|].
    split; [|exact Hopen'].
    constructor; [|exact Hcs].
    eapply session_valid_same_identity; eassumption.
  - exists t. rewrite Hup. split; [exact Hd'|]. split; [exact Huniq|].
    split; [exact Hpid|]. split; [exact Hfk|]. split; [exact Hmedia|].
    split; [|exact Hopen'].
    rewrite Hs.
    constructor; [|exact Hcs]. intros uid [=].
  - exists t. rewrite Hup. split; [exact Hd'|]. split; [exact Huniq|].
    split; [exact Hpid|]. split; [exact Hfk|]. split; [exact Hmedia|].
    split; [|exact Hopen'].
    constructor; [|exact Hcs].
    apply select_login_sound in Hf as (u & Hu & Hn & Hid & _).
    intros uid' Hs'. exists u. rewrite Hsn, Hn.
    split; [exact Hu|]. split; congruence.
  - pose proof (insert_user_inr _ _ _ _ _ _ Hins) as (_ & Hus & Hps).
    assert (Hsub : forall u, u ∈ users t -> u ∈ users t').
    { intros u Hu. rewrite Hus. apply elem_of_app. left. exact Hu. }
    exists t'. rewrite Hup. split; [exact Hd'|].
    split; [eapply insert_user_unique; eassumption|].
    split; [rewrite Hps; exact Hpid|].
    split; [eapply posts_have_authors_more; eassumption|].
    split; [unfold media_stored; rewrite Hps; exact Hmedia|].
    split; [|exact Hopen'].
    constructor.
    + eapply session_valid_more; [exact Hsub|].
      eapply session_valid_same_identity; eassumption.
    + eapply Forall_impl; [exact Hcs|]. intros s.
      apply session_valid_more, Hsub.
  - destruct (Hcv uid Hsu) as (u & Hu & Hid & _).
    eexists. rewrite Hup. split; [exact Hd'|].
    split; [exact Huniq|]. split; [apply insert_post_ids, Hpid|].
    split; [apply posts_have_authors_insert; eauto|].
    split; [apply media_stored_insert_none, Hmedia|].
    split; [|exact Hopen'].
    constructor; [|exact Hcs].
    eapply session_valid_same_identity; eassumption.
  - destruct (Hcv uid Hsu) as (u & Hu & Hid & _).
    eexists. rewrite Hup. split; [exact Hd'|].
    split; [exact Huniq|]. split; [apply insert_post_ids, Hpid|].
    split; [apply posts_have_authors_insert; eauto|].
    split; [apply media_stored_insert_some, Hmedia|].
    split; [|exact Hopen'].
    constructor; [|exact Hcs].
    eapply session_valid_same_identity; eassumption.
Qed.

Lemma world_ok_start : world_ok start_world [empty_session].
Proof.
  exists empty_tables. split; [reflexivity|].
  unfold users_unique, posts_have_authors, media_stored. simpl.
  repeat split; try constructor; try constructor.
  intros uid [=].
Qed.

Lemma reachable_world_ok wz w cookies :
  reachable wz w cookies -> world_ok w cookies.
Proof.
  induction 1 as [|w cookies c r req e Hr IH Hc].
  - apply world_ok_start.
  - eapply world_ok_step; [exact IH | exact Hc | apply surjective_pairing].
Qed.

(** ** Registration *)

Lemma register_run_success wz req e w t username email password :
  method req = POST ->
  form req !! "username" = Some username ->
  form req !! "email" = Some email ->
  form req !! "password" = Some password ->
  database w = Some t ->
  (forall u, u ∈ users t -> u_username u <> username /\ u_email u <> email) ->
  exists t',
    insert_user t username email
      (generate_password_hash wz (salt e) password) (current_timestamp e)
    = inr t' /\
    register wz req e w =
      (Returns (Redirect "/login"),
       {| database := Some t';
          session :=
            {| s_user_id := s_user_id (session w);
               s_username := s_username (session w);
               s_flashes := s_flashes (session w) ++
                            ["Registration successful! Please login."];
               s_other := s_other (session w) |};
          uploads := uploads w;
          open_conns := open_conns w;
          log := log w ++ [EvConnect; EvExecute SelectDuplicate;
                           EvExecute InsertUser; EvCommit; EvClose] |}).
Proof.
  intros Hm Hu He Hp Hd Hfresh.
  assert (Hno : ¬ is_Some
                  (fetchone (select_by_username_or_email t username email))).
  { rewrite select_duplicate_found. intros (u & Hin & Hdup).
    destruct (Hfresh u Hin). tauto. }
  destruct (insert_user_after_check t username email
              (generate_password_hash wz (salt e) password)
              (current_timestamp e) Hno) as [t' Ht'].
  exists t'. split; [exact Ht'|].
  unfold register. run_monad. rewrite Hm, Hu, He, Hp. simpl.
  rewrite Hd. simpl. rewrite bool_decide_eq_false_2 by exact Hno.
  simpl. rewrite Ht'. simpl. finish_run.
Qed.

(** In a table where nobody had the name, the login query fetches the row
    that was appended under it. *)
Lemma select_by_username_appended t t' row :
  users t' = (users t ++ [row])%list ->
  (forall u, u ∈ users t -> u_username u <> u_username row) ->
  fetchone (select_by_username t' (u_username row))
  = Some (u_id row, u_password_hash row).
Proof.
  intros Hus Hfresh. unfold fetchone, select_by_username.
  rewrite Hus, filter_app.
  assert (Hnil : filter (fun u => u_username u = u_username row) (users t)
                 = []).
  { destruct (filter _ (users t)) as [|x l] eqn:E; [reflexivity|].
    assert (Hx : x ∈ filter (fun u => u_username u = u_username row)
                       (users t)) by (rewrite E; left).
    apply list_elem_of_filter in Hx as [Hn Hx]. destruct (Hfresh x Hx Hn). }
  rewrite Hnil. simpl. rewrite filter_cons.
  destruct (decide (u_username row = u_username row)); [reflexivity|].
  congruence.
Qed.

(** X1.  The verdict of [allowed_file] on a name with a dot depends only
    on the lowered text after the last dot: neither the stem nor the case
    of the letters matters. *)
Theorem allowed_file_by_lowered_extension f1 b1 x1 f2 b2 x2 :
  has_extension f1 b1 x1 -> has_extension f2 b2 x2 ->
  PyStr.lower x1 = PyStr.lower x2 ->
  allowed_file f1 = allowed_file f2.
Proof.
  intros H1 H2 Hl.
  rewrite (allowed_file_extension f1 b1 x1 H1),
    (allowed_file_extension f2 b2 x2 H2), Hl.
  reflexivity.
Qed.

Lemma allowed_file_by_lowered_extension_witness :
  allowed_file "cat.JPG" = allowed_file "archive.tar.jpg".
Proof.
  apply (allowed_file_by_lowered_extension "cat.JPG" "cat" "JPG"
           "archive.tar.jpg" "archive.tar" "jpg").
  - split; reflexivity.
  - split; reflexivity.
  - reflexivity.
Defined.

(** X2.  [Config.SECRET_KEY] is the value of the environment variable
    when that is set to a non-empty string, and the built-in default when
    the variable is unset or empty. *)
Theorem config_secret_key_from_environment (env : environ) :
  (forall v, env !! "SECRET_KEY" = Some v -> v <> "" ->
             Config.SECRET_KEY env = v) /\
  (env !! "SECRET_KEY" = None \/ env !! "SECRET_KEY" = Some "" ->
   Config.SECRET_KEY env = default_secret_key).
Proof.
  unfold Config.SECRET_KEY, py_or. split.
  - intros v -> Hv. destruct (decide (v = "")); [contradiction | reflexivity].
  - intros [-> | ->]; reflexivity.
Qed.

Lemma config_secret_key_from_environment_witness :
  Config.SECRET_KEY {[ "SECRET_KEY" := "s3cret" ]} = "s3cret" /\
  Config.SECRET_KEY {[ "SECRET_KEY" := "" ]} = default_secret_key.
Proof.
  split.
  - apply (proj1 (config_secret_key_from_environment
                    {[ "SECRET_KEY" := "s3cret" ]}));
      [reflexivity | discriminate].
  - apply (proj2 (config_secret_key_from_environment
                    {[ "SECRET_KEY" := "" ]})).
    right. reflexivity.
Defined.

(** X3.  [init_db] always succeeds and closes its connection; it creates
    the empty tables on a file that has none and keeps the rows of a file
    that has them, so running it again changes nothing in the database. *)
Theorem init_db_idempotent (w : world) :
  fst (init_db w) = Returns tt /\
  database (snd (init_db w))
  = Some (match database w with Some t => t | None => empty_tables end) /\
  open_conns (snd (init_db w)) = open_conns w /\
  session (snd (init_db w)) = session w /\
  uploads (snd (init_db w)) = uploads w /\
  database (snd (init_db (snd (init_db w)))) = database (snd (init_db w)).
Proof.
  unfold init_db, create_tables_if_not_exists. run_monad.
  repeat split; reflexivity.
Qed.

(** X4.  No handler ever runs into a constraint of the schema or into a
    session key that is not there: whatever the request and the world, the
    outcome is never an [IntegrityError] ([register] inserts only after
    its duplicate check found nothing, so the [UNIQUE] constraints are
    never hit) and never a [KeyError] ([create_post] reads
    [session['user_id']] only behind its gate). *)
Theorem handlers_never_violate_constraints wz r req e w msg :
  fst (handler wz r req e w) <> Raises (IntegrityError msg) /\
  fst (handler wz r req e w) <> Raises (KeyError msg).
Proof.
  destruct (handler wz r req e w) as [out w'] eqn:H.
  pose proof (handler_connections wz r req e w out w' H) as Hc.
  cbn [fst]. split; intros ->; exact Hc.
Qed.

(** X5.  A registration whose username and email are both new appends
    exactly one user row, with a fresh id, the submitted name and email
    and the hash of the submitted password, leaves the posts alone,
    queues the success message and redirects to the login page; it does
    not log the new user in. *)
Theorem register_creates_user wz req e w t username email password :
  method req = POST ->
  form req !! "username" = Some username ->
  form req !! "email" = Some email ->
  form req !! "password" = Some password ->
  database w = Some t ->
  (forall u, u ∈ users t -> u_username u <> username /\ u_email u <> email) ->
  let r := register wz req e w in
  fst r = Returns (Redirect (url_for "login")) /\
  (exists t' row,
     database (snd r) = Some t' /\
     users t' = (users t ++ [row])%list /\ posts t' = posts t /\
     u_username row = username /\ u_email row = email /\
     u_password_hash row = generate_password_hash wz (salt e) password /\
     (forall u, u ∈ users t -> u_id u < u_id row)) /\
  s_user_id (session (snd r)) = s_user_id (session w) /\
  s_flashes (session (snd r))
  = (s_flashes (session w) ++ ["Registration successful! Please login."])%list.
Proof.
  intros Hm Hu He Hp Hd Hfresh r. subst r.
  destruct (register_run_success wz req e w t username email password
              Hm Hu He Hp Hd Hfresh) as (t' & Hins & ->).
  apply insert_user_inr in Hins as (_ & Hus & Hps).
  simpl. split; [reflexivity|]. split; [|auto].
  eexists t', _. split; [reflexivity|]. split; [exact Hus|].
  split; [exact Hps|]. simpl. repeat split.
  intros u Hin. apply next_rowid_above.
  apply list_elem_of_In, in_map, list_elem_of_In, Hin.
Qed.

Lemma register_creates_user_witness :
  let req := Sample.mk_request POST
               [("username", "cyd"); ("email", "cyd@example.org");
                ("password", "pw3")] [] in
  fst (register Sample.wz req Sample.e0 Sample.w_anon)
  = Returns (Redirect "/login").
Proof.
  intros req.
  apply (register_creates_user Sample.wz req Sample.e0 Sample.w_anon
           Sample.t0 "cyd" "cyd@example.org" "pw3"); try reflexivity.
  intros u Hu. apply list_elem_of_In in Hu.
  destruct Hu as [<-|[<-|[]]]; split; discriminate.
Defined.

(** X6.  Registration and login compose: when the hash made from a
    password verifies against that password, a login with the registered
    name and password right after a successful registration succeeds and
    binds the session to the id of the new row. *)
Theorem register_then_login wz req e w t username email password lreq le :
  method req = POST ->
  form req !! "username" = Some username ->
  form req !! "email" = Some email ->
  form req !! "password" = Some password ->
  database w = Some t ->
  (forall u, u ∈ users t -> u_username u <> username /\ u_email u <> email) ->
  check_password_hash wz (generate_password_hash wz (salt e) password)
    password = true ->
  method lreq = POST ->
  form lreq !! "username" = Some username ->
  form lreq !! "password" = Some password ->
  let w1 := snd (register wz req e w) in
  let r := login wz lreq le w1 in
  fst r = Returns (Redirect (url_for "index")) /\
  s_username (session (snd r)) = Some username /\
  exists t' row, database w1 = Some t' /\ row ∈ users t' /\
                 u_username row = username /\
                 s_user_id (session (snd r)) = Some (u_id row).
Proof.
  intros Hm Hu He Hp Hd Hfresh Hcheck Hlm Hlu Hlp w1 r. subst r w1.
  destruct (register_run_success wz req e w t username email password
              Hm Hu He Hp Hd Hfresh) as (t' & Hins & ->).
  apply insert_user_inr in Hins as (_ & Hus & _).
  cbn [snd].
  erewrite (login_run wz lreq le _ t' username password Hlm Hlu Hlp)
    by reflexivity.
  cbv zeta.
  pose proof (select_by_username_appended t t' _ Hus) as Hsel.
  cbn [u_username u_id u_password_hash] in Hsel.
  rewrite Hsel by (intros u Hin; apply Hfresh, Hin).
  rewrite Hcheck. simpl. split; [reflexivity|]. split; [reflexivity|].
  match type of Hus with _ = (_ ++ [?row])%list => exists t', row end.
  split; [reflexivity|]. split; [|split; reflexivity].
  rewrite Hus. apply elem_of_app. right. left.
Qed.

Lemma register_then_login_witness :
  let req := Sample.mk_request POST
               [("username", "cyd"); ("email", "cyd@example.org");
                ("password", "pw3")] [] in
  let lreq := Sample.mk_request POST
                [("username", "cyd"); ("password", "pw3")] [] in
  fst (login Sample.wz lreq Sample.e0
         (snd (register Sample.wz req Sample.e0 Sample.w_anon)))
  = Returns (Redirect "/").
Proof.
  intros req lreq.
  apply (register_then_login Sample.wz req Sample.e0 Sample.w_anon Sample.t0
           "cyd" "cyd@example.org" "pw3" lreq Sample.e0); try reflexivity.
  intros u Hu. apply list_elem_of_In in Hu.
  destruct Hu as [<-|[<-|[]]]; split; discriminate.
Defined.

(** X7.  No request breaks the uniqueness of user ids, usernames and
    emails: when the users table satisfies the three constraints before a
    handler runs, it satisfies them afterwards. *)
Theorem users_stay_unique wz r req e w t :
  database w = Some t -> users_unique t ->
  exists t', database (snd (handler wz r req e w)) = Some t' /\
             users_unique t'.
Proof.
  intros Hd Hu. destruct (handler wz r req e w) as [out w'] eqn:H.
  cbn [snd].
  destruct (handler_effect wz r req e w t out w' Hd H)
    as [Hd' | Hd' | ? ? ? Hd' | t' ? ? ? ? Hins Hd' | ? ? ? ? Hd'
        | ? ? ? ? ? ? ? Hd']; eauto using insert_user_unique.
Qed.

Lemma users_stay_unique_witness :
  exists t', database (snd (handler Sample.wz Register
                              Sample.register_ann_again Sample.e0
                              Sample.w_anon)) = Some t' /\
             users_unique t'.
Proof.
  apply (users_stay_unique Sample.wz Register Sample.register_ann_again
           Sample.e0 Sample.w_anon Sample.t0); [reflexivity|].
  unfold users_unique.
  repeat split; apply (bool_decide_unpack _); vm_compute; exact I.
Defined.

(** X8.  The tables only grow, and by at most one row per request: every
    handler leaves the existing user and post rows in place and unchanged
    and appends at most one row in all. *)
Theorem tables_append_only wz r req e w t :
  database w = Some t ->
  exists t' new_users new_posts,
    database (snd (handler wz r req e w)) = Some t' /\
    users t' = (users t ++ new_users)%list /\
    posts t' = (posts t ++ new_posts)%list /\
    (length new_users + length new_posts <= 1)%nat.
Proof.
  intros Hd. destruct (handler wz r req e w) as [out w'] eqn:H.
  cbn [snd].
  destruct (handler_effect wz r req e w t out w' Hd H)
    as [Hd' | Hd' | ? ? ? Hd' | t' ? ? ? ? Hins Hd' | ? ? ? ? Hd'
        | ? ? ? ? ? ? ? Hd'].
  1-3: exists t, [], []; rewrite !app_nil_r; simpl; repeat split; auto.
  - apply insert_user_inr in Hins as (_ & Hus & Hps).
    eexists t', [_], []. rewrite app_nil_r.
    split; [exact Hd'|]. split; [exact Hus|]. split; [exact Hps|].
    simpl. lia.
  - eexists _, [], [_]. split; [exact Hd'|].
    rewrite app_nil_r. simpl. repeat split. lia.
  - eexists _, [], [_]. split; [exact Hd'|].
    rewrite app_nil_r. simpl. repeat split. lia.
Qed.

Lemma tables_append_only_witness :
  exists t' new_users new_posts,
    database (snd (handler Sample.wz CreatePost (Sample.post_with "hi" [])
                     Sample.e0 Sample.w_ann)) = Some t' /\
    users t' = (users Sample.t0 ++ new_users)%list /\
    posts t' = (posts Sample.t0 ++ new_posts)%list /\
    (length new_users + length new_posts <= 1)%nat.
Proof.
  apply (tables_append_only Sample.wz CreatePost (Sample.post_with "hi" [])
           Sample.e0 Sample.w_ann Sample.t0).
  reflexivity.
Defined.

(** X9.  [logout] always redirects to the login page and empties the
    session, pending flash messages included, leaving only its own
    message; database and uploads are untouched, and a following request
    to [/] or [/create_post] with that session is turned away. *)
Theorem logout_closes_gate wz lreq le w r req e :
  r = Index \/ r = CreatePost ->
  let w1 := snd (logout lreq le w) in
  fst (logout lreq le w) = Returns (Redirect (url_for "login")) /\
  session w1 = {| s_user_id := None; s_username := None;
                  s_flashes := ["You have been logged out."];
                  s_other := ∅ |} /\
  database w1 = database w /\ uploads w1 = uploads w /\
  handler wz r req e w1 = (Returns (Redirect (url_for "login")), w1).
Proof.
  intros Hr w1. subst w1. unfold logout at 1 2 3 4. run_monad.
  repeat split.
  destruct Hr as [-> | ->]; simpl.
  - apply index_run_anonymous. reflexivity.
  - apply create_post_run_anonymous. reflexivity.
Qed.

Lemma logout_closes_gate_witness :
  handler Sample.wz Index (Sample.mk_request GET [] []) Sample.e0
    (snd (logout (Sample.mk_request GET [] []) Sample.e0 Sample.w_ann))
  = (Returns (Redirect "/login"),
     snd (logout (Sample.mk_request GET [] []) Sample.e0 Sample.w_ann)).
Proof.
  apply (logout_closes_gate Sample.wz (Sample.mk_request GET [] [])
           Sample.e0 Sample.w_ann Index (Sample.mk_request GET [] [])
           Sample.e0).
  left. reflexivity.
Defined.

(** X10.  A login that ends on the login form, for whatever reason, has
    not touched the identity in the session: whoever was logged in before
    a failed attempt still is.  Database and uploads are as before. *)
Theorem failed_login_keeps_identity wz req e w :
  fst (login wz req e w) = Returns (Render "login.html" None) ->
  s_user_id (session (snd (login wz req e w))) = s_user_id (session w) /\
  s_username (session (snd (login wz req e w))) = s_username (session w) /\
  database (snd (login wz req e w)) = database w /\
  uploads (snd (login wz req e w)) = uploads w.
Proof.
  destruct (login wz req e w) as [out w'] eqn:H. cbn [fst snd]. intros ->.
  unfold login in H. run_monad.
  split_paths H; simplify_eq; simpl; auto.
Qed.

Lemma failed_login_keeps_identity_witness :
  s_user_id (session (snd (login Sample.wz Sample.login_bob_wrong Sample.e0
                             Sample.w_ann))) = Some 1.
Proof.
  apply (failed_login_keeps_identity Sample.wz Sample.login_bob_wrong
           Sample.e0 Sample.w_ann).
  reflexivity.
Defined.

(** X11.  A [GET] on [/register] or [/login], and on [/create_post] for a
    logged-in user, renders the form and changes nothing at all. *)
Theorem get_renders_form wz req e w :
  method req = GET ->
  register wz req e w = (Returns (Render "register.html" None), w) /\
  login wz req e w = (Returns (Render "login.html" None), w) /\
  (s_user_id (session w) <> None ->
   create_post wz req e w = (Returns (Render "create_post.html" None), w)).
Proof.
  intros Hm. unfold register, login, create_post. run_monad. rewrite Hm.
  simpl. repeat split. intros Hs.
  rewrite bool_decide_eq_false_2 by exact Hs. reflexivity.
Qed.

Lemma get_renders_form_witness :
  register Sample.wz (Sample.mk_request GET [] []) Sample.e0 Sample.w_anon
  = (Returns (Render "register.html" None), Sample.w_anon).
Proof.
  apply (get_renders_form Sample.wz (Sample.mk_request GET [] []) Sample.e0
           Sample.w_anon).
  reflexivity.
Defined.

(** X12.  A registration form that lacks a field is rejected with a
    [BadRequestKeyError] naming the first missing field, in the order
    username, email, password, before the database is opened: the world
    is unchanged. *)
Theorem register_missing_field wz req e w :
  method req = POST ->
  (form req !! "username" = None ->
   register wz req e w = (Raises (BadRequestKeyError "username"), w)) /\
  (is_Some (form req !! "username") -> form req !! "email" = None ->
   register wz req e w = (Raises (BadRequestKeyError "email"), w)) /\
  (is_Some (form req !! "username") -> is_Some (form req !! "email") ->
   form req !! "password" = None ->
   register wz req e w = (Raises (BadRequestKeyError "password"), w)).
Proof.
  intros Hm. unfold register. run_monad. rewrite Hm. simpl.
  split; [|split].
  - intros ->. reflexivity.
  - intros [u ->] ->. reflexivity.
  - intros [u ->] [m ->] ->. reflexivity.
Qed.

Lemma register_missing_field_witness :
  register Sample.wz
    (Sample.mk_request POST [("username", "dan"); ("password", "x")] [])
    Sample.e0 Sample.w_anon
  = (Raises (BadRequestKeyError "email"), Sample.w_anon).
Proof.
  apply (register_missing_field Sample.wz
           (Sample.mk_request POST [("username", "dan"); ("password", "x")] [])
           Sample.e0 Sample.w_anon eq_refl).
  - exists "dan". reflexivity.
  - reflexivity.
Defined.

(** X13.  The upload is saved before the post is inserted and is not
    removed when the insert fails: on a database without tables, an
    accepted upload that the filesystem takes ends up in the upload
    folder although the request raises, no post exists, and the
    connection stays open. *)
Theorem upload_kept_when_insert_fails wz req e w uid content file :
  s_user_id (session w) = Some uid ->
  method req = POST ->
  form req !! "content" = Some content ->
  upload_accepted req file ->
  database w = None ->
  let path := "static/uploads/" +:+ strftime (now e) +:+ "_" +:+
              secure_filename wz (filename file) in
  storage_accepts e path = true ->
  let r := create_post wz req e w in
  fst r = Raises (OperationalError "no such table") /\
  uploads (snd r) !! path = Some (stream file) /\
  database (snd r) = None /\
  open_conns (snd r) = S (open_conns w) /\
  log (snd r) = (log w ++ [EvSave path; EvConnect])%list.
Proof.
  intros Hs Hm Hc [Hf Ha] Hd path Hst r. subst r path.
  rewrite <- path_join_upload in Hst.
  unfold create_post, handle_upload. run_monad.
  rewrite Hs, Hm, Hc, Hf, Ha. simpl. unfold truthy.
  rewrite !bool_decide_eq_true_2 by (by apply allowed_file_nonempty).
  simpl. rewrite Hst. simpl. rewrite ?Hs, ?Hd. simpl.
  rewrite path_join_upload.
  rewrite lookup_insert_eq, <- app_assoc. repeat split.
Qed.

Lemma upload_kept_when_insert_fails_witness :
  let w := {| database := None; session := session Sample.w_ann;
              uploads := ∅; open_conns := 0; log := [] |} in
  let r := create_post Sample.wz
             (Sample.post_with "look" [("media", Sample.cat_jpg)])
             Sample.e0 w in
  fst r = Raises (OperationalError "no such table") /\
  uploads (snd r) !! "static/uploads/20240307_090500_cat.JPG" = Some "JFIF".
Proof.
  intros w r.
  destruct (upload_kept_when_insert_fails Sample.wz
              (Sample.post_with "look" [("media", Sample.cat_jpg)])
              Sample.e0 w 1 "look" Sample.cat_jpg
              eq_refl eq_refl eq_refl (conj eq_refl eq_refl) eq_refl
              eq_refl)
    as (H1 & H2 & _).
  split; [exact H1 | exact H2].
Defined.

(** X14.  The timestamp prefix has a resolution of one second: two
    accepted uploads whose sanitized names agree, made within the same
    second and both taken by the filesystem, get the same path; the
    second file replaces the first and both posts refer to it. *)
Theorem same_second_upload_overwrites wz req1 req2 e1 e2 w t uid c1 c2 f1 f2 :
  s_user_id (session w) = Some uid -> database w = Some t ->
  method req1 = POST -> form req1 !! "content" = Some c1 ->
  upload_accepted req1 f1 ->
  method req2 = POST -> form req2 !! "content" = Some c2 ->
  upload_accepted req2 f2 ->
  now e1 = now e2 ->
  secure_filename wz (filename f1) = secure_filename wz (filename f2) ->
  let name :=
    strftime (now e1) +:+ "_" +:+ secure_filename wz (filename f1) in
  storage_accepts e1 ("static/uploads/" +:+ name) = true ->
  storage_accepts e2 ("static/uploads/" +:+ name) = true ->
  let w1 := snd (create_post wz req1 e1 w) in
  let w2 := snd (create_post wz req2 e2 w1) in
  uploads w1 !! ("static/uploads/" +:+ name) = Some (stream f1) /\
  uploads w2 !! ("static/uploads/" +:+ name) = Some (stream f2) /\
  exists t2 p1 p2,
    database w2 = Some t2 /\ posts t2 = (posts t ++ [p1; p2])%list /\
    p_media_filename p1 = Some name /\ p_media_filename p2 = Some name.
Proof.
  intros Hs Hd Hm1 Hc1 Ha1 Hm2 Hc2 Ha2 Hnow Hname name Hst1 Hst2 w1 w2.
  subst w2 w1 name.
  rewrite <- path_join_upload in Hst1, Hst2.
  rewrite (create_post_run_accept wz req1 e1 w t uid c1 f1) by assumption.
  cbv zeta. cbn [snd].
  erewrite (create_post_run_accept wz req2 e2 _ _ uid c2 f2);
    [|reflexivity|assumption|assumption|reflexivity|assumption
     |rewrite <- Hnow, <- Hname; exact Hst2].
  cbv zeta. cbn [snd uploads database].
  rewrite <- Hnow, <- Hname, !path_join_upload, !lookup_insert_eq.
  split; [reflexivity|]. split; [reflexivity|].
  eexists _, _, _. split; [reflexivity|].
  cbn [insert_post posts]. rewrite <- app_assoc. simpl.
  split; [reflexivity|]. split; reflexivity.
Qed.

Lemma same_second_upload_overwrites_witness :
  let req1 := Sample.post_with "one"
                [("media", {| filename := "cat.JPG"; stream := "AAAA" |})] in
  let req2 := Sample.post_with "two"
                [("media", {| filename := "cat.JPG"; stream := "BBBB" |})] in
  uploads (snd (create_post Sample.wz req2 Sample.e0
                  (snd (create_post Sample.wz req1 Sample.e0 Sample.w_ann))))
    !! "static/uploads/20240307_090500_cat.JPG" = Some "BBBB".
Proof.
  intros req1 req2.
  destruct (same_second_upload_overwrites Sample.wz req1 req2 Sample.e0
              Sample.e0 Sample.w_ann Sample.t0 1 "one" "two"
              {| filename := "cat.JPG"; stream := "AAAA" |}
              {| filename := "cat.JPG"; stream := "BBBB" |}
              eq_refl eq_refl eq_refl eq_refl (conj eq_refl eq_refl)
              eq_refl eq_refl (conj eq_refl eq_refl) eq_refl eq_refl
              eq_refl eq_refl)
    as (_ & H & _).
  exact H.
Defined.

(** X15.  In every world a server started through [init_db] can reach, by
    any sequence of requests from any clients: the tables exist, user ids,
    usernames and emails are unique, post ids are unique, every post has
    an author row, every media file a post names is in the upload folder,
    every cookie that names a user names an existing one together with
    that user's username, and no database connection is open. *)
Theorem reachable_worlds_consistent wz w cookies :
  reachable wz w cookies -> world_ok w cookies.
Proof. apply reachable_world_ok. Qed.

Lemma reachable_worlds_consistent_witness :
  let req := Sample.mk_request POST
               [("username", "ann"); ("email", "ann@example.org");
                ("password", "pw")] [] in
  let w := snd (handler Sample.wz Register req Sample.e0
                  (with_session empty_session start_world)) in
  world_ok w [session w; empty_session].
Proof.
  intros req w.
  apply (reachable_worlds_consistent Sample.wz).
  apply (reachable_request Sample.wz start_world [empty_session]
           empty_session Register req Sample.e0).
  - apply reachable_start.
  - left.
Defined.

(** X16.  In every reachable world the feed has exactly one row for each
    post: the inner join of [index] loses no post and repeats none. *)
Theorem reachable_feed_complete wz w cookies :
  reachable wz w cookies ->
  exists t, database w = Some t /\
            map f_id (list_feed t) ≡ₚ map p_id (posts t) /\
            length (list_feed t) = length (posts t).
Proof.
  intros Hr. apply reachable_world_ok in Hr
    as (t & Hd & (Hid & _) & _ & Hfk & _).
  exists t. split; [exact Hd|].
  pose proof (list_feed_ids t Hid Hfk) as Hp. split; [exact Hp|].
  apply Permutation_length in Hp. rewrite !length_map in Hp. exact Hp.
Qed.

Lemma reachable_feed_complete_witness :
  exists t, database Sample.w_cyd_posted = Some t /\
            map f_id (list_feed t) ≡ₚ map p_id (posts t) /\
            length (list_feed t) = length (posts t) /\
            length (posts t) = 1%nat.
Proof.
  destruct (reachable_feed_complete Sample.wz Sample.w_cyd_posted
              [session Sample.w_cyd_posted; session Sample.w_cyd_logged_in;
               session Sample.w_cyd_registered; empty_session])
    as (t & Hd & Hperm & Hlen).
  - apply (reachable_request Sample.wz Sample.w_cyd_logged_in
             [session Sample.w_cyd_logged_in;
              session Sample.w_cyd_registered; empty_session]
             (session Sample.w_cyd_logged_in) CreatePost
             (Sample.post_with "hello" []) Sample.e0); [|left].
    apply (reachable_request Sample.wz Sample.w_cyd_registered
             [session Sample.w_cyd_registered; empty_session]
             (session Sample.w_cyd_registered) Login Sample.login_cyd
             Sample.e0); [|left].
    apply (reachable_request Sample.wz start_world [empty_session]
             empty_session Register Sample.register_cyd Sample.e0); [|left].
    apply reachable_start.
  - exists t. split; [exact Hd|]. split; [exact Hperm|].
    split; [exact Hlen|].
    vm_compute in Hd. injection Hd as <-. reflexivity.
Defined.

(** X17.  [index], [login] and [logout] never write: whatever the request
    and the world, also when they raise, database and upload folder are
    afterwards what they were. *)
Theorem read_only_routes wz r req e w :
  r = Index \/ r = Login \/ r = Logout ->
  database (snd (handler wz r req e w)) = database w /\
  uploads (snd (handler wz r req e w)) = uploads w.
Proof.
  intros Hr. destruct (handler wz r req e w) as [out w'] eqn:H.
  cbn [snd]. destruct Hr as [-> | [-> | ->]]; simpl in H.
  - unfold index in H. run_monad. split_paths H; simplify_eq; simpl; auto.
  - unfold login in H. run_monad. split_paths H; simplify_eq; simpl; auto.
  - unfold logout in H. run_monad. simplify_eq. simpl. auto.
Qed.

Lemma read_only_routes_witness :
  database (snd (handler Sample.wz Login Sample.login_bob Sample.e0
                   Sample.w_ann)) = database Sample.w_ann /\
  uploads (snd (handler Sample.wz Login Sample.login_bob Sample.e0
                  Sample.w_ann)) = uploads Sample.w_ann.
Proof.
  apply (read_only_routes Sample.wz Login Sample.login_bob Sample.e0
           Sample.w_ann).
  right. left. reflexivity.
Defined.

(** X18.  The post created by a submission that was answered gets an id
    above the id of every post already in the table. *)
Theorem new_post_id_fresh wz req e w t uid content resp :
  s_user_id (session w) = Some uid ->
  method req = POST ->
  form req !! "content" = Some content ->
  database w = Some t ->
  fst (create_post wz req e w) = Returns resp ->
  exists p, created_post w (snd (create_post wz req e w)) p /\
            forall q, q ∈ posts t -> p_id q < p_id p.
Proof.
  intros Hs Hm Hc Hd Hret.
  destruct (create_post_run_returned wz req e w t uid content resp
              Hs Hm Hc Hd Hret)
    as (media & w' & Hr & Hd' & _).
  rewrite Hr. cbn [snd].
  eexists. split; [eapply created_post_insert; [exact Hd | exact Hd']|].
  simpl. intros q Hq. apply next_rowid_above.
  apply list_elem_of_In, in_map, list_elem_of_In, Hq.
Qed.

Lemma new_post_id_fresh_witness :
  exists p, created_post Sample.w_ann
              (snd (create_post Sample.wz (Sample.post_with "hi" [])
                      Sample.e0 Sample.w_ann)) p /\
            forall q, q ∈ posts Sample.t0 -> p_id q < p_id p.
Proof.
  apply (new_post_id_fresh Sample.wz (Sample.post_with "hi" []) Sample.e0
           Sample.w_ann Sample.t0 1 "hi" (Redirect "/")); reflexivity.
Defined.

(** X19.  The feed is newest first: when a logged-in user whose row
    exists posts at a time later than every stored post and the
    submission is answered, the first row of the feed afterwards is that
    post. *)
Theorem new_post_tops_feed wz req e w t uid content resp :
  s_user_id (session w) = Some uid ->
  method req = POST ->
  form req !! "content" = Some content ->
  database w = Some t ->
  (exists u, u ∈ users t /\ u_id u = uid) ->
  (forall p, p ∈ posts t -> p_created_at p < current_timestamp e) ->
  fst (create_post wz req e w) = Returns resp ->
  exists t' r rest,
    database (snd (create_post wz req e w)) = Some t' /\
    list_feed t' = r :: rest /\
    f_content r = content /\ f_created_at r = current_timestamp e /\
    f_id r = next_rowid (posts_seq t) (map p_id (posts t)).
Proof.
  intros Hs Hm Hc Hd (u & Hu & Hid) Hold Hret.
  destruct (create_post_run_returned wz req e w t uid content resp
              Hs Hm Hc Hd Hret)
    as (media & w' & Hr & Hd' & _).
  rewrite Hr. cbn [snd].
  set (t' := insert_post t uid content media (current_timestamp e)) in *.
  set (newp := {| p_id := next_rowid (posts_seq t) (map p_id (posts t));
                  p_user_id := uid; p_content := content;
                  p_media_filename := media;
                  p_created_at := current_timestamp e |}).
  assert (Hnew : feed_of newp u ∈ list_feed t').
  { apply list_feed_elem. exists newp, u. split; [|auto].
    subst t'. cbn [insert_post posts]. apply elem_of_app. right. left. }
  pose proof (list_feed_sorted t') as Hsorted.
  destruct (list_feed t') as [|r rest] eqn:Ef; [inversion Hnew|].
  exists t', r, rest. split; [exact Hd'|]. split; [exact Ef|].
  assert (Hr' : r ∈ list_feed t') by (rewrite Ef; left).
  apply list_feed_elem in Hr' as (p & u' & Hp & _ & _ & ->).
  subst t'. cbn [insert_post posts] in Hp.
  apply elem_of_app in Hp as [Hp | Hp].
  - exfalso. specialize (Hold p Hp).
    apply list_elem_of_In in Hnew. destruct Hnew as [Hn | Hn].
    + apply (f_equal f_created_at) in Hn. simpl in Hn. lia.
    + apply StronglySorted_inv in Hsorted as [_ Hall].
      rewrite Forall_forall in Hall.
      apply list_elem_of_In, Hall in Hn. unfold created_desc in Hn.
      simpl in Hn. lia.
  - apply list_elem_of_singleton in Hp as ->. simpl. auto.
Qed.

Lemma new_post_tops_feed_witness :
  exists t' r rest,
    database (snd (create_post Sample.wz (Sample.post_with "hi" [])
                     Sample.e0 Sample.w_ann)) = Some t' /\
    list_feed t' = r :: rest /\
    f_content r = "hi" /\ f_created_at r = 100 /\ f_id r = 3.
Proof.
  apply (new_post_tops_feed Sample.wz (Sample.post_with "hi" []) Sample.e0
           Sample.w_ann Sample.t0 1 "hi" (Redirect "/")); try reflexivity.
  - exists Sample.ann. split; [left | reflexivity].
  - intros p Hp. apply list_elem_of_In in Hp.
    destruct Hp as [<-|[<-|[]]]; reflexivity.
Defined.

(** X20.  Login opens the gate: after a successful login the next request
    to [/] is answered with the rendered feed instead of a redirect, and
    the rows rendered are the joined posts in non-increasing order of
    [created_at]. *)
Theorem login_opens_gate wz req e w t username password u ireq ie :
  method req = POST ->
  form req !! "username" = Some username ->
  form req !! "password" = Some password ->
  database w = Some t ->
  NoDup (map u_username (users t)) ->
  u ∈ users t -> u_username u = username ->
  check_password_hash wz (u_password_hash u) password = true ->
  exists rows,
    fst (index ireq ie (snd (login wz req e w)))
    = Returns (Render "index.html" (Some rows)) /\
    rows ≡ₚ join_posts_users t /\
    StronglySorted created_desc rows.
Proof.
  intros Hm Hu Hp Hd Hnd Hin Hn Hc. subst username.
  rewrite (login_run wz req e w t _ password Hm Hu Hp Hd).
  cbv zeta. rewrite (select_login_unique t u Hnd Hin), Hc. cbn [snd].
  exists (list_feed t). split; [erewrite index_run; reflexivity|].
  split; [apply list_feed_perm | apply list_feed_sorted].
Qed.

Lemma login_opens_gate_witness :
  exists rows,
    fst (index (Sample.mk_request GET [] []) Sample.e0
           (snd (login Sample.wz Sample.login_bob Sample.e0 Sample.w_anon)))
    = Returns (Render "index.html" (Some rows)) /\
    rows ≡ₚ join_posts_users Sample.t0 /\
    StronglySorted created_desc rows.
Proof.
  apply (login_opens_gate Sample.wz Sample.login_bob Sample.e0 Sample.w_anon
           Sample.t0 "bob" "hunter2" Sample.bob); try reflexivity.
  - apply (bool_decide_unpack _). vm_compute. exact I.
  - right. left.
Defined.

(** X21.  An accepted upload that the filesystem refuses makes
    [create_post] raise the error of [file.save] before the database is
    opened: no post is created, nothing is stored, no connection is
    opened, and the world is exactly as before. *)
Theorem upload_refused_no_post wz req e w uid content file :
  s_user_id (session w) = Some uid ->
  method req = POST ->
  form req !! "content" = Some content ->
  upload_accepted req file ->
  storage_accepts e
    ("static/uploads/" +:+ strftime (now e) +:+ "_" +:+
     secure_filename wz (filename file)) = false ->
  exists msg, create_post wz req e w = (Raises (OSError msg), w).
Proof.
  intros Hs Hm Hc Ha Hst. rewrite <- path_join_upload in Hst.
  eexists. apply (create_post_run_refused wz req e w uid content file);
    assumption.
Qed.

Lemma upload_refused_no_post_witness :
  exists msg,
    create_post Sample.wz
      (Sample.post_with "look" [("media", Sample.long_png)]) Sample.e0
      Sample.w_ann
    = (Raises (OSError msg), Sample.w_ann).
Proof.
  apply (upload_refused_no_post Sample.wz
           (Sample.post_with "look" [("media", Sample.long_png)]) Sample.e0
           Sample.w_ann 1 "look" Sample.long_png).
  - reflexivity.
  - reflexivity.
  - reflexivity.
  - split; [reflexivity | vm_compute; reflexivity].
  - vm_compute. reflexivity.
Defined.
